(** * serial_plot: the ingestion tick of [my_serial_plot.py]

    A shallow embedding of [update_plot] (the animation callback that
    drains the serial port, parses [key:value] lines, maintains the
    rolling buffers of [data_dict], appends rows to the worksheet [ws]
    and rescales the axes), together with the module-level
    initialisation it depends on and the [pause]/[resume] callbacks.

    Modelling decisions.
    - A Python [str] is the list of its code points ([text]); [bytes]
      is [list byte].  [bytes.decode('utf-8')], [str.strip],
      [str.split] and [in] are modelled on that representation.
    - Python's [float] type and the builtin [float(s)] are not
      modelled bit for bit: the development is parametric in a value
      type [V] with the operations the program uses (class [PyFloat]).
      A concrete instance ([DecFloat]) that reads ASCII decimal
      literals exactly is used to run the program on concrete lines.
    - Python keeps the mutations made before an exception is raised,
      so a computation is a function [state -> outcome A * state]
      whose state survives a [Raise].
    - The serial port is its input buffer, the bytes received and not
      yet read.  Bytes arriving while a tick is running, and the one
      second read timeout, are outside the model: [readline] returns
      what is buffered up to and including the first newline. *)

From Stdlib Require Import Strings.String Strings.Ascii Strings.Byte.
From Stdlib Require Import List NArith ZArith QArith Bool Lia.
Import ListNotations.
Close Scope Q_scope.
Open Scope nat_scope.

Set Implicit Arguments.

(** ** Text: Python [str] as code points *)

Definition text := list N.

(** An ASCII literal as a [str]. *)
Definition txt (s : string) : text := map Byte.to_N (list_byte_of_string s).

(** An ASCII literal as [bytes]. *)
Definition bytes (s : string) : list byte := list_byte_of_string s.

Fixpoint text_eqb (a b : text) : bool :=
  match a, b with
  | [], [] => true
  | x :: a', y :: b' => N.eqb x y && text_eqb a' b'
  | _, _ => false
  end.

Definition comma : N := 44.
Definition colon : N := 58.
Definition newline : N := 10.

(** [str.isspace] on one code point (the table of CPython's
    [_PyUnicode_IsWhitespace]). *)
Definition isspace (c : N) : bool :=
  ((9 <=? c) && (c <=? 13) || (28 <=? c) && (c <=? 32)
   || (c =? 133) || (c =? 160) || (c =? 5760)
   || (8192 <=? c) && (c <=? 8202)
   || (c =? 8232) || (c =? 8233) || (c =? 8239) || (c =? 8287)
   || (c =? 12288))%N.

Fixpoint lstrip (s : text) : text :=
  match s with
  | [] => []
  | c :: r => if isspace c then lstrip r else s
  end.

Definition rstrip (s : text) : text := rev (lstrip (rev s)).

(** [s.strip()] *)
Definition strip (s : text) : text := rstrip (lstrip s).

(** [sep in s] for a one-character [sep]. *)
Definition contains (sep : N) (s : text) : bool := existsb (N.eqb sep) s.

(** [s.split(sep)] for a one-character [sep]: never the empty list. *)
Fixpoint split (sep : N) (s : text) : list text :=
  match s with
  | [] => [[]]
  | c :: r =>
      if N.eqb c sep then [] :: split sep r
      else match split sep r with
           | p :: ps => (c :: p) :: ps
           | [] => [[c]]
           end
  end.

Fixpoint partition1 (sep : N) (s : text) : option (text * text) :=
  match s with
  | [] => None
  | c :: r =>
      if N.eqb c sep then Some ([], r)
      else match partition1 sep r with
           | Some (a, b) => Some (c :: a, b)
           | None => None
           end
  end.

(** [s.split(sep, 1)]: at most one cut, at the first [sep]. *)
Definition split_1 (sep : N) (s : text) : list text :=
  match partition1 sep s with
  | Some (a, b) => [a; b]
  | None => [s]
  end.

(** ** [bytes.decode('utf-8')] with the default [errors='strict']

    The well-formed byte sequences of the Unicode standard: no
    overlong forms, no surrogates, nothing above U+10FFFF.  [None] is
    [UnicodeDecodeError]. *)

Definition cont (b : N) : bool := ((128 <=? b) && (b <=? 191))%N.
Definition in_range (lo hi b : N) : bool := ((lo <=? b) && (b <=? hi))%N.

Fixpoint utf8_decode (bs : list N) : option text :=
  match bs with
  | [] => Some []
  | b0 :: r0 =>
      if (b0 <? 128)%N then option_map (cons b0) (utf8_decode r0)
      else if in_range 194 223 b0 then
        match r0 with
        | b1 :: r1 =>
            if cont b1
            then option_map (cons ((b0 - 192) * 64 + (b1 - 128))%N)
                            (utf8_decode r1)
            else None
        | _ => None
        end
      else if in_range 224 239 b0 then
        match r0 with
        | b1 :: b2 :: r2 =>
            if in_range (if (b0 =? 224)%N then 160 else 128)
                        (if (b0 =? 237)%N then 159 else 191) b1
               && cont b2
            then option_map
                   (cons ((b0 - 224) * 4096 + (b1 - 128) * 64 + (b2 - 128))%N)
                   (utf8_decode r2)
            else None
        | _ => None
        end
      else if in_range 240 244 b0 then
        match r0 with
        | b1 :: b2 :: b3 :: r3 =>
            if in_range (if (b0 =? 240)%N then 144 else 128)
                        (if (b0 =? 244)%N then 143 else 191) b1
               && cont b2 && cont b3
            then option_map
                   (cons ((b0 - 240) * 262144 + (b1 - 128) * 4096
                          + (b2 - 128) * 64 + (b3 - 128))%N)
                   (utf8_decode r3)
            else None
        | _ => None
        end
      else None
  end.

(** ** Python [dict]: insertion-ordered, keys unique

    [d[k] = v] replaces the value in place when [k] is present and
    adds the pair at the end otherwise; iteration follows the list. *)

Definition dict (A : Type) := list (text * A).

Fixpoint dict_get {A} (k : text) (d : dict A) : option A :=
  match d with
  | [] => None
  | (k', v) :: r => if text_eqb k k' then Some v else dict_get k r
  end.

Fixpoint dict_set {A} (k : text) (v : A) (d : dict A) : dict A :=
  match d with
  | [] => [(k, v)]
  | (k', v') :: r =>
      if text_eqb k k' then (k', v) :: r else (k', v') :: dict_set k v r
  end.

(** [k in d] *)
Definition dict_mem {A} (k : text) (d : dict A) : bool :=
  match dict_get k d with Some _ => true | None => false end.

Definition keys {A} (d : dict A) : list text := map fst d.
Definition values {A} (d : dict A) : list A := map snd d.

(** ** The operations of Python's [float] the program uses *)

Class PyFloat (V : Type) := {
  (** [float(s)]; [None] is [ValueError] *)
  float : text -> option V;
  (** [x < y] *)
  flt : V -> V -> bool;
  (** [x == y] *)
  feq : V -> V -> bool;
  fadd : V -> V -> V;
  fsub : V -> V -> V;
  (** an [int] operand converted for mixed arithmetic *)
  of_int : Z -> V;
  (** [numpy.isfinite(x)]: neither NaN nor an infinity *)
  isfinite : V -> bool
}.

(** [x > y] *)
Definition fgt {V} `{PyFloat V} (x y : V) : bool := flt y x.

(** ** Exceptions and outcomes *)

Inductive exn :=
| UnicodeDecodeError (raw : list byte)
| ValueError (arg : text)
| KeyError (key : text).

(** [isinstance(e, ValueError)]: [UnicodeDecodeError] is a subclass. *)
Definition is_ValueError (e : exn) : bool :=
  match e with
  | UnicodeDecodeError _ | ValueError _ => true
  | KeyError _ => false
  end.

Inductive outcome (A : Type) :=
| Ok (a : A)
| Raise (e : exn).
Arguments Ok {A} a.
Arguments Raise {A} e.

(** The two [print] calls of the handlers. *)
Inductive message :=
| ParseErrorMsg (e : exn)
| OtherErrorMsg (e : exn).

(** [min(xs)] and [max(xs)]: the first extremal item; [None] on an
    empty iterable. *)
Definition py_min {A} (lt : A -> A -> bool) (xs : list A) : option A :=
  match xs with
  | [] => None
  | x :: r =>
      Some (fold_left (fun best item => if lt item best then item else best)
                      r x)
  end.

Definition py_max {A} (gt : A -> A -> bool) (xs : list A) : option A :=
  match xs with
  | [] => None
  | x :: r =>
      Some (fold_left (fun best item => if gt item best then item else best)
                      r x)
  end.

Definition MAX_POINTS : nat := 100.

Section Program.

Context {V : Type} `{FV : PyFloat V}.

(** Comparison of two lists ([list.__lt__], [list.__gt__]): the first
    pair of items that are not [==] decides; without one, the lengths
    do. *)
Fixpoint list_cmp (op : V -> V -> bool) (len_op : nat -> nat -> bool)
         (a b : list V) : bool :=
  match a, b with
  | x :: a', y :: b' => if feq x y then list_cmp op len_op a' b' else op x y
  | _, _ => len_op (length a) (length b)
  end.

Definition list_lt : list V -> list V -> bool := list_cmp flt Nat.ltb.
Definition list_gt : list V -> list V -> bool :=
  list_cmp fgt (fun n m => Nat.ltb m n).

(** A worksheet cell. *)
Inductive cell :=
| CStr (s : text)
| CNum (v : V).

(** The globals [update_plot] reads and writes. *)
Record state := mkState {
  paused : bool;
  ser : list byte;
  data_dict : dict (list V);
  ws : list (list cell);
  lines : dict (list nat * list V);
  xlim : option (nat * nat);
  ylim : option (V * V);
  stdout : list message
}.

Definition set_paused (p : bool) (st : state) : state :=
  mkState p (ser st) (data_dict st) (ws st) (lines st) (xlim st) (ylim st)
          (stdout st).
Definition set_ser (s : list byte) (st : state) : state :=
  mkState (paused st) s (data_dict st) (ws st) (lines st) (xlim st) (ylim st)
          (stdout st).
Definition set_data_dict (d : dict (list V)) (st : state) : state :=
  mkState (paused st) (ser st) d (ws st) (lines st) (xlim st) (ylim st)
          (stdout st).
Definition set_ws (w : list (list cell)) (st : state) : state :=
  mkState (paused st) (ser st) (data_dict st) w (lines st) (xlim st) (ylim st)
          (stdout st).
Definition set_lines (l : dict (list nat * list V)) (st : state) : state :=
  mkState (paused st) (ser st) (data_dict st) (ws st) l (xlim st) (ylim st)
          (stdout st).
Definition set_xlim (x : option (nat * nat)) (st : state) : state :=
  mkState (paused st) (ser st) (data_dict st) (ws st) (lines st) x (ylim st)
          (stdout st).
Definition set_ylim (y : option (V * V)) (st : state) : state :=
  mkState (paused st) (ser st) (data_dict st) (ws st) (lines st) (xlim st) y
          (stdout st).
Definition set_stdout (o : list message) (st : state) : state :=
  mkState (paused st) (ser st) (data_dict st) (ws st) (lines st) (xlim st)
          (ylim st) o.

(** *** The monad of the embedding *)

Definition M (A : Type) := state -> outcome A * state.

Definition ret {A} (a : A) : M A := fun st => (Ok a, st).

Definition bind {A B} (m : M A) (k : A -> M B) : M B :=
  fun st =>
    match m st with
    | (Ok a, st') => k a st'
    | (Raise e, st') => (Raise e, st')
    end.

Definition raise {A} (e : exn) : M A := fun st => (Raise e, st).

Definition get : M state := fun st => (Ok st, st).

Definition modify (f : state -> state) : M unit := fun st => (Ok tt, f st).

(** [try: m  except Exception as e: h e] *)
Definition try_except {A} (m : M A) (h : exn -> M A) : M A :=
  fun st =>
    match m st with
    | (Ok a, st') => (Ok a, st')
    | (Raise e, st') => h e st'
    end.

Notation "x <- m ;; k" := (bind m (fun x => k))
  (at level 61, m at next level, right associativity).
Notation "m ;;; k" := (bind m (fun _ => k))
  (at level 61, right associativity).

(** *** Primitive statements *)

(** [ser.readline()] on the buffered bytes. *)
Fixpoint readline_split (buf : list byte) : list byte * list byte :=
  match buf with
  | [] => ([], [])
  | b :: r =>
      if N.eqb (Byte.to_N b) newline then ([b], r)
      else let (l, r') := readline_split r in (b :: l, r')
  end.

Definition readline : M (list byte) :=
  fun st =>
    let (l, r) := readline_split (ser st) in (Ok l, set_ser r st).

(** [ser.in_waiting] *)
Definition in_waiting (st : state) : nat := length (ser st).

Definition decode (raw : list byte) : M text :=
  match utf8_decode (map Byte.to_N raw) with
  | Some s => ret s
  | None => raise (UnicodeDecodeError raw)
  end.

(** [key, value = parts] *)
Definition unpack2 (parts : list text) : M (text * text) :=
  match parts with
  | [a; b] => ret (a, b)
  | _ => raise (ValueError [])
  end.

Definition to_float (s : text) : M V :=
  match float s with
  | Some v => ret v
  | None => raise (ValueError s)
  end.

(** [data_dict[key]] *)
Definition getitem (key : text) : M (list V) :=
  st <- get ;;
  match dict_get key (data_dict st) with
  | Some buf => ret buf
  | None => raise (KeyError key)
  end.

(** Writing back the list object stored under [key] after it was
    mutated in place. *)
Definition setitem (key : text) (buf : list V) : M unit :=
  modify (fun st => set_data_dict (dict_set key buf (data_dict st)) st).

Definition ws_append (row : list cell) : M unit :=
  modify (fun st => set_ws (ws st ++ [row]) st).

Definition print (m : message) : M unit :=
  modify (fun st => set_stdout (stdout st ++ [m]) st).

(** *** [update_plot] *)

(** [for entry in entries: ...] (lines 132-138) *)
Fixpoint parse_entries (entries : list text) (temp_data : dict V)
  : M (dict V) :=
  match entries with
  | [] => ret temp_data
  | entry :: rest =>
      if contains colon entry then
        kv <- unpack2 (split_1 colon entry) ;;
        let key := strip (fst kv) in
        value <- to_float (strip (snd kv)) ;;
        st <- get ;;
        if dict_mem key (data_dict st)
        then parse_entries rest (dict_set key value temp_data)
        else parse_entries rest temp_data
      else parse_entries rest temp_data
  end.

(** [for key, value in temp_data.items(): ...] (lines 141-145) *)
Fixpoint update_items (items : list (text * V)) (row_data : list V)
  : M (list V) :=
  match items with
  | [] => ret row_data
  | (key, value) :: rest =>
      buf <- getitem key ;;
      setitem key (buf ++ [value]) ;;;
      let row_data := row_data ++ [value] in
      buf <- getitem key ;;
      (if Nat.ltb MAX_POINTS (length buf)
       then setitem key (tl buf)
       else ret tt) ;;;
      update_items rest row_data
  end.

(** The body of the [try] (lines 126-147). *)
Definition try_block : M unit :=
  raw <- readline ;;
  s <- decode raw ;;
  let line := strip s in
  match line with
  | [] => ret tt
  | _ =>
      let entries := split comma line in
      temp_data <- parse_entries entries [] ;;
      row_data <- update_items temp_data [] ;;
      ws_append (map CNum row_data)
  end.

(** One iteration of the [while]: the [try] with its two handlers. *)
Definition loop_body : M unit :=
  try_except try_block
    (fun e => if is_ValueError e
              then print (ParseErrorMsg e)
              else print (OtherErrorMsg e)).

(** [while ser.in_waiting: ...]; every iteration reads at least one
    byte, so the number of buffered bytes bounds the iterations (see
    [while_in_waiting_drains]). *)
Fixpoint while_in_waiting (fuel : nat) : M unit :=
  match fuel with
  | 0 => ret tt
  | S fuel' =>
      st <- get ;;
      if Nat.eqb (in_waiting st) 0 then ret tt
      else loop_body ;;; while_in_waiting fuel'
  end.

(** [min(min(data_dict[key] for key in data_dict), default=0) - 10]
    and its [max] twin (lines 160-161).  The inner call ranges over
    the buffers themselves, which Python compares as lists; it raises
    [ValueError] on an empty [data_dict]. *)
Definition y_min_of (d : dict (list V)) : option V :=
  match py_min list_lt (values d) with
  | Some smallest =>
      Some (fsub (match py_min flt smallest with
                  | Some m => m
                  | None => of_int 0
                  end) (of_int 10))
  | None => None
  end.

Definition y_max_of (d : dict (list V)) : option V :=
  match py_max list_gt (values d) with
  | Some largest =>
      Some (fadd (match py_max fgt largest with
                  | Some m => m
                  | None => of_int 0
                  end) (of_int 10))
  | None => None
  end.

Definition or_raise {A} (o : option A) (e : exn) : M A :=
  match o with
  | Some a => ret a
  | None => raise e
  end.

(** [ax.set_ylim(bottom, top)]: matplotlib validates both limits
    before it changes anything and raises [ValueError] for a limit
    that is NaN or infinite. *)
Definition ax_set_ylim (bottom top : V) : M unit :=
  if isfinite bottom && isfinite top
  then modify (set_ylim (Some (bottom, top)))
  else raise (ValueError (txt "Axis limits cannot be NaN or Inf")).

(** [for key, line in lines.items(): ...] (lines 154-162) *)
Fixpoint render_lines (ks : list text) : M unit :=
  match ks with
  | [] => ret tt
  | key :: rest =>
      y_data <- getitem key ;;
      let x_data := seq 0 (length y_data) in
      modify (fun st =>
                set_lines (dict_set key (x_data, y_data) (lines st)) st) ;;;
      match y_data with
      | [] => ret tt
      | _ =>
          modify (set_xlim (Some (0, MAX_POINTS))) ;;;
          st <- get ;;
          y_min <- or_raise (y_min_of (data_dict st)) (ValueError []) ;;
          y_max <- or_raise (y_max_of (data_dict st)) (ValueError []) ;;
          ax_set_ylim y_min y_max
      end ;;;
      render_lines rest
  end.

Definition update_plot (frame : nat) : M unit :=
  st <- get ;;
  if paused st then ret tt
  else
    while_in_waiting (in_waiting st) ;;;
    st <- get ;;
    render_lines (keys (lines st)).

Definition pause : M unit := modify (set_paused true).
Definition resume : M unit := modify (set_paused false).

(** *** Module-level initialisation (lines 14-64) *)

Definition data_dict_init : dict (list V) :=
  [(txt "current_speed", []); (txt "current_duty", []);
   (txt "target_speed", [])].

(** The header row: [ws.append(list(data_dict.keys()))]. *)
Definition header : list cell := map CStr (keys data_dict_init).

Definition initial_state : state :=
  {| paused := false;
     ser := [];
     data_dict := data_dict_init;
     ws := [] ++ [header];
     lines := map (fun k => (k, ([], []))) (keys data_dict_init);
     xlim := None;
     ylim := None;
     stdout := [] |}.

End Program.

Arguments cell : clear implicits.
Arguments state : clear implicits.
Arguments M : clear implicits.

Notation "x <- m ;; k" := (bind m (fun x => k))
  (at level 61, m at next level, right associativity).
Notation "m ;;; k" := (bind m (fun _ => k))
  (at level 61, right associativity).

(** ** The transport and the user as events *)

Section Events.

Context {V : Type} `{FV : PyFloat V}.

(** What happens between and at the timer ticks: a tick of the
    animation, the two buttons, and bytes arriving on the port. *)
Inductive event :=
| Tick (frame : nat)
| Pause
| Resume
| Receive (data : list byte).

Definition handle (ev : event) (st : state V) : state V :=
  match ev with
  | Tick frame => snd (update_plot frame st)
  | Pause => snd (pause st)
  | Resume => snd (resume st)
  | Receive data => set_ser (ser st ++ data) st
  end.

Definition run (evs : list event) (st : state V) : state V :=
  fold_left (fun s ev => handle ev s) evs st.

End Events.

(** ** Pure readings of the loop, used to state and prove the claims *)

Section Pure.

Context {V : Type} `{FV : PyFloat V}.

(** [key in ks] *)
Definition recognized (ks : list text) (key : text) : bool :=
  existsb (text_eqb key) ks.

(** The parsing loop as a function of the recognized keys. *)
Fixpoint parse_pure (ks : list text) (entries : list text) (temp_data : dict V)
  : outcome (dict V) :=
  match entries with
  | [] => Ok temp_data
  | entry :: rest =>
      if contains colon entry then
        match split_1 colon entry with
        | [k; v] =>
            match float (strip v) with
            | Some x =>
                if recognized ks (strip k)
                then parse_pure ks rest (dict_set (strip k) x temp_data)
                else parse_pure ks rest temp_data
            | None => Raise (ValueError (strip v))
            end
        | _ => Raise (ValueError [])
        end
      else parse_pure ks rest temp_data
  end.

(** A fragment with a separator whose value side is not a float. *)
Definition value_fails (entry : text) : bool :=
  contains colon entry &&
  match split_1 colon entry with
  | [_; v] => match float (strip v) with Some _ => false | None => true end
  | _ => false
  end.

(** The recognized (key, value) pairs of the fragments, in the order
    of the line, leaving out every fragment that has no separator, an
    unrecognized key or a value that is not a float. *)
Fixpoint pairs_of (ks : list text) (entries : list text) : list (text * V) :=
  match entries with
  | [] => []
  | entry :: rest =>
      if contains colon entry then
        match split_1 colon entry with
        | [k; v] =>
            match float (strip v) with
            | Some x =>
                if recognized ks (strip k)
                then (strip k, x) :: pairs_of ks rest
                else pairs_of ks rest
            | None => pairs_of ks rest
            end
        | _ => pairs_of ks rest
        end
      else pairs_of ks rest
  end.

(** The keys of a list without repetition, each at its first place. *)
Fixpoint first_occ (l : list text) : list text :=
  match l with
  | [] => []
  | x :: r => x :: filter (fun y => negb (text_eqb y x)) (first_occ r)
  end.

(** The last value paired with [k]. *)
Definition last_value (k : text) (ps : list (text * V)) : option V :=
  dict_get k (rev ps).

(** Appending one value to a buffer, as lines 142-145 do. *)
Definition record (buf : list V) (v : V) : list V :=
  let buf' := buf ++ [v] in
  if Nat.ltb MAX_POINTS (length buf') then tl buf' else buf'.

Fixpoint record_all (items : list (text * V)) (d : dict (list V))
  : dict (list V) :=
  match items with
  | [] => d
  | (k, v) :: rest =>
      record_all rest
        (match dict_get k d with
         | Some buf => dict_set k (record buf v) d
         | None => d
         end)
  end.

(** The last [n] items of a list. *)
Definition lastn {A} (n : nat) (l : list A) : list A :=
  skipn (length l - n) l.

(** What one raw line comes to: an exception, nothing (a blank line),
    or a candidate set. *)
Definition line_result (ks : list text) (raw : list byte)
  : outcome (option (dict V)) :=
  match utf8_decode (map Byte.to_N raw) with
  | None => Raise (UnicodeDecodeError raw)
  | Some s =>
      match strip s with
      | [] => Ok None
      | line =>
          match parse_pure ks (split comma line) [] with
          | Ok td => Ok (Some td)
          | Raise e => Raise e
          end
      end
  end.

(** The raw line is not skipped by an exception. *)
Definition line_ok (ks : list text) (raw : list byte) : bool :=
  match line_result ks raw with
  | Ok _ => true
  | Raise _ => false
  end.

(** One iteration of the loop on the line [raw], once read. *)
Definition step_line (raw : list byte) (st : state V) : state V :=
  match line_result (keys (data_dict st)) raw with
  | Ok (Some td) =>
      set_ws (ws st ++ [map CNum (values td)])
             (set_data_dict (record_all td (data_dict st)) st)
  | Ok None => st
  | Raise e =>
      set_stdout (stdout st ++ [if is_ValueError e then ParseErrorMsg e
                                else OtherErrorMsg e]) st
  end.

(** The same on the buffers and the worksheet alone. *)
Definition step_store (raw : list byte)
           (dw : dict (list V) * list (list (cell V)))
  : dict (list V) * list (list (cell V)) :=
  match line_result (keys (fst dw)) raw with
  | Ok (Some td) =>
      (record_all td (fst dw), snd dw ++ [map CNum (values td)])
  | _ => dw
  end.

(** The successive results of [readline] on a buffer. *)
Fixpoint read_lines (buf : list byte) : list (list byte) :=
  match buf with
  | [] => []
  | b :: r =>
      if N.eqb (Byte.to_N b) newline then [b] :: read_lines r
      else match read_lines r with
           | l :: ls => (b :: l) :: ls
           | [] => [[b]]
           end
  end.

(** The raw lines the ticks of [evs] read, starting with pause flag
    [p] and buffered bytes [buf]. *)
Fixpoint lines_read (evs : list event) (p : bool) (buf : list byte)
  : list (list byte) :=
  match evs with
  | [] => []
  | Tick _ :: r =>
      if p then lines_read r p buf
      else read_lines buf ++ lines_read r p []
  | Pause :: r => lines_read r true buf
  | Resume :: r => lines_read r false buf
  | Receive data :: r => lines_read r p (buf ++ data)
  end.

(** The values accepted for metric [m] from the raw lines, in arrival
    order. *)
Definition accepted (ks : list text) (m : text) (raws : list (list byte))
  : list V :=
  flat_map (fun raw =>
              match line_result ks raw with
              | Ok (Some td) =>
                  match dict_get m td with Some v => [v] | None => [] end
              | _ => []
              end) raws.

(** The export rows of the raw lines, in arrival order. *)
Definition rows_of (ks : list text) (raws : list (list byte))
  : list (list (cell V)) :=
  flat_map (fun raw =>
              match line_result ks raw with
              | Ok (Some td) => [map CNum (values td)]
              | _ => []
              end) raws.

Definition is_num (c : cell V) : bool :=
  match c with CNum _ => true | CStr _ => false end.

(** The rows below the header. *)
Definition data_rows (st : state V) : list (list (cell V)) := tl (ws st).

(** The rows of a sheet up to its last row that has a cell. *)
Fixpoint drop_trailing_empty (rows : list (list (cell V)))
  : list (list (cell V)) :=
  match rows with
  | [] => []
  | row :: rest =>
      match row, drop_trailing_empty rest with
      | [], [] => []
      | _, rest' => row :: rest'
      end
  end.

(** [wb.save(filename)] at shutdown (lines 198-202): the rows of the
    file written.  A row keeps its place in the sheet, also after rows
    without cells, but the file ends at the last row that has a cell:
    rows without cells at the end of the sheet are not written. *)
Definition wb_save (st : state V) : list (list (cell V)) :=
  drop_trailing_empty (ws st).

(** The row of a candidate set laid out in the order of the
    recognized metrics, as section 4.3 of the specification words it. *)
Definition row_in_fixed_order (ks : list text) (td : dict V)
  : list (cell V) :=
  flat_map (fun k => match dict_get k td with
                     | Some v => [CNum v]
                     | None => []
                     end) ks.

(** The least and the greatest value over all buffers, as section 4.5
    of the specification words the range; [None] when nothing is
    stored. *)
Definition global_min (d : dict (list V)) : option V :=
  py_min flt (concat (values d)).
Definition global_max (d : dict (list V)) : option V :=
  py_max fgt (concat (values d)).

(** The buffers can serve every line of the chart. *)
Definition renderable (st : state V) : Prop :=
  forall k, In k (keys (lines st)) -> dict_mem k (data_dict st) = true.

(** The buffers and the worksheet of a state: the metric store and
    the export log. *)
Definition store_of (st : state V) : dict (list V) * list (list (cell V)) :=
  (data_dict st, ws st).

(** [st'] differs from [st] at most in the chart. *)
Definition same_store (st st' : state V) : Prop :=
  paused st' = paused st /\ ser st' = ser st
  /\ data_dict st' = data_dict st /\ ws st' = ws st
  /\ stdout st' = stdout st.

Definition keeps_store {A} (m : M V A) : Prop :=
  forall st, same_store st (snd (m st)).

(** [temp_data[key] = value] *)
Definition set_pair (td : dict V) (kv : text * V) : dict V :=
  dict_set (fst kv) (snd kv) td.

(** The row of a line in the order its metrics are first met, each
    with its last value on the line. *)
Definition encounter_row (ks : list text) (entries : list text)
  : list (cell V) :=
  flat_map (fun k => match last_value k (pairs_of ks entries) with
                     | Some v => [CNum v]
                     | None => []
                     end)
           (first_occ (map fst (pairs_of ks entries))).

End Pure.

(** ** A concrete [float]: ASCII decimal literals, read exactly

    [float(s)] accepts, after stripping white space, an optional sign
    followed by [inf], [infinity], [nan] (in any case) or a decimal
    number [digits[.digits][e[sign]digits]] whose digit groups may be
    separated by single underscores.  The value of a literal is kept
    as the rational it denotes: rounding to binary64, overflow to
    infinity and the non-ASCII decimal digits Python also accepts are
    not modelled. *)

Module DecFloat.

Inductive pyfloat :=
| Fin (q : Q)
| PosInf
| NegInf
| NaN.

Definition is_digit (c : N) : bool := ((48 <=? c) && (c <=? 57))%N.

Definition lower (c : N) : N :=
  if ((65 <=? c) && (c <=? 90))%N then (c + 32)%N else c.

(** [(["_"] digit)*] *)
Fixpoint digits_tail (s : text) : list N * text :=
  match s with
  | [] => ([], [])
  | c :: r =>
      if is_digit c then
        let (ds, r') := digits_tail r in (c :: ds, r')
      else if N.eqb c 95 then
        match r with
        | d :: r2 =>
            if is_digit d then
              let (ds, r') := digits_tail r2 in (d :: ds, r')
            else ([], s)
        | [] => ([], s)
        end
      else ([], s)
  end.

(** [digit (["_"] digit)*] *)
Definition digitpart (s : text) : option (list N * text) :=
  match s with
  | c :: r =>
      if is_digit c then
        let (ds, r') := digits_tail r in Some (c :: ds, r')
      else None
  | [] => None
  end.

Definition digits_value (ds : list N) : N :=
  fold_left (fun acc d => (acc * 10 + (d - 48))%N) ds 0%N.

(** [[sign]]: the sign as [true] for minus, and the rest. *)
Definition take_sign (s : text) : bool * text :=
  match s with
  | c :: r => if N.eqb c 45 then (true, r)
              else if N.eqb c 43 then (false, r)
              else (false, s)
  | [] => (false, s)
  end.

(** [number]: mantissa digits and the count of fraction digits. *)
Definition number (s : text) : option (list N * nat * text) :=
  match digitpart s with
  | Some (ip, r) =>
      match r with
      | c :: r1 =>
          if N.eqb c 46 then
            match digitpart r1 with
            | Some (fp, r2) => Some (ip ++ fp, length fp, r2)
            | None => Some (ip, 0, r1)
            end
          else Some (ip, 0, r)
      | [] => Some (ip, 0, r)
      end
  | None =>
      match s with
      | c :: r1 =>
          if N.eqb c 46 then
            match digitpart r1 with
            | Some (fp, r2) => Some (fp, length fp, r2)
            | None => None
            end
          else None
      | [] => None
      end
  end.

(** [[exponent]]: the exponent and the rest; [None] when an [e] is not
    followed by digits. *)
Definition exponent (s : text) : option (Z * text) :=
  match s with
  | c :: r =>
      if N.eqb (lower c) 101 then
        let (neg, r1) := take_sign r in
        match digitpart r1 with
        | Some (ds, r2) =>
            let e := Z.of_N (digits_value ds) in
            Some (if neg then (- e)%Z else e, r2)
        | None => None
        end
      else Some (0%Z, s)
  | [] => Some (0%Z, s)
  end.

(** [m * 10 ^ e] as a reduced fraction. *)
Definition scale10 (m : Z) (e : Z) : Q :=
  match e with
  | Zneg p => Qred (Qmake m (Pos.pow 10 p))
  | _ => Qmake (m * 10 ^ e) 1
  end.

Definition parse_float (s : text) : option pyfloat :=
  let (neg, r) := take_sign (strip s) in
  let word := map lower r in
  if text_eqb word (txt "inf") || text_eqb word (txt "infinity")
  then Some (if neg then NegInf else PosInf)
  else if text_eqb word (txt "nan") then Some NaN
  else
    match number r with
    | Some (ds, frac, r1) =>
        match exponent r1 with
        | Some (e, []) =>
            let m := Z.of_N (digits_value ds) in
            Some (Fin (scale10 (if neg then (- m)%Z else m)
                               (e - Z.of_nat frac)))
        | _ => None
        end
    | None => None
    end.

Definition Qltb (a b : Q) : bool := negb (Qle_bool b a).

Definition lt (x y : pyfloat) : bool :=
  match x, y with
  | NaN, _ | _, NaN => false
  | Fin a, Fin b => Qltb a b
  | NegInf, NegInf => false
  | NegInf, _ => true
  | _, NegInf => false
  | PosInf, _ => false
  | Fin _, PosInf => true
  end.

Definition eq (x y : pyfloat) : bool :=
  match x, y with
  | Fin a, Fin b => Qeq_bool a b
  | PosInf, PosInf | NegInf, NegInf => true
  | _, _ => false
  end.

Definition neg (x : pyfloat) : pyfloat :=
  match x with
  | Fin a => Fin (Qred (Qopp a))
  | PosInf => NegInf
  | NegInf => PosInf
  | NaN => NaN
  end.

Definition add (x y : pyfloat) : pyfloat :=
  match x, y with
  | NaN, _ | _, NaN => NaN
  | Fin a, Fin b => Fin (Qred (Qplus a b))
  | PosInf, NegInf | NegInf, PosInf => NaN
  | PosInf, _ | _, PosInf => PosInf
  | NegInf, _ | _, NegInf => NegInf
  end.

Definition sub (x y : pyfloat) : pyfloat := add x (neg y).

#[export] Instance pyfloat_ops : PyFloat pyfloat :=
  {| float := parse_float;
     flt := lt;
     feq := eq;
     fadd := add;
     fsub := sub;
     of_int := fun z => Fin (Qmake z 1);
     isfinite := fun x => match x with Fin _ => true | _ => false end |}.

(** The float written as the integer [z]. *)
Definition num (z : Z) : pyfloat := Fin (Qmake z 1).

End DecFloat.


Import DecFloat.

Definition LF : string := String "010"%char EmptyString.

(** The state of the program right after start-up with [data] waiting
    on the port. *)
Definition started_with (data : string) : state pyfloat :=
  set_ser (bytes data) initial_state.

(** ** The rest of the loop, read purely *)

Section Accounts.

Context {V : Type} `{FV : PyFloat V}.

(** What the handlers print for a raw line. *)
Definition error_of (ks : list text) (raw : list byte) : list message :=
  match line_result (V:=V) ks raw with
  | Raise e => [ParseErrorMsg e]
  | Ok _ => []
  end.

(** The raw line decodes to white space only. *)
Definition is_blank (ks : list text) (raw : list byte) : bool :=
  match line_result (V:=V) ks raw with
  | Ok None => true
  | _ => false
  end.

Definition is_parse_error (m : message) : bool :=
  match m with
  | ParseErrorMsg (UnicodeDecodeError _) | ParseErrorMsg (ValueError _) => true
  | _ => false
  end.

(** The bytes the events deliver, in order. *)
Fixpoint received (evs : list event) : list byte :=
  match evs with
  | [] => []
  | Receive data :: r => data ++ received r
  | _ :: r => received r
  end.

(** The buffer is empty or ends with a newline. *)
Definition at_line_end (buf : list byte) : bool :=
  match rev buf with
  | [] => true
  | b :: _ => N.eqb (Byte.to_N b) newline
  end.

(** One pass of the loop of lines 154-162 for [key], when
    [ax.set_ylim] accepts the limits. *)
Definition render_one (key : text) (st : state V) : state V :=
  match dict_get key (data_dict st) with
  | None => st
  | Some y_data =>
      let st1 :=
        set_lines (dict_set key (seq 0 (length y_data), y_data) (lines st))
                  st in
      match y_data with
      | [] => st1
      | _ =>
          match y_min_of (data_dict st), y_max_of (data_dict st) with
          | Some y_min, Some y_max =>
              set_ylim (Some (y_min, y_max))
                       (set_xlim (Some (0, MAX_POINTS)) st1)
          | _, _ => st1
          end
      end
  end.

End Accounts.

(** ** The chart: check boxes, tooltip and mouse (lines 56-116)

    A curve of the chart is a [Line2D] object holding its data and its
    visibility.  The data is the entry of [lines] in the state above;
    the visibility is kept here in [line_shown].  [line_visible] holds
    the variables of the check boxes.  Whether the pointer is over a
    curve is decided by matplotlib ([line.contains(event)]); a mouse
    event carries that answer for every curve. *)

Section Chart.

Context {V : Type} `{FV : PyFloat V}.

(** The annotation [annot]: visibility, anchor and text; the text is
    kept as the key and the point it is formatted from, [None] being
    the empty text it starts with. *)
Record annotation := mkAnnot {
  annot_visible : bool;
  annot_xy : nat * V;
  annot_text : option (text * nat * V)
}.

Record gui := mkGui {
  core : state V;
  line_visible : dict bool;
  line_shown : dict bool;
  annot : annotation;
  draws : nat
}.

Record mouse_event := mkMouse {
  (** [event.inaxes == ax] *)
  inaxes : bool;
  (** [lines[key].contains(event)]: the flag and [ind["ind"]] *)
  contains_at : text -> bool * list nat
}.

Inductive gui_exn :=
| GKeyError (key : text)
| IndexError
| CoreError (e : exn).

Definition set_core (c : state V) (g : gui) : gui :=
  mkGui c (line_visible g) (line_shown g) (annot g) (draws g).
Definition set_line_visible (d : dict bool) (g : gui) : gui :=
  mkGui (core g) d (line_shown g) (annot g) (draws g).
Definition set_line_shown (d : dict bool) (g : gui) : gui :=
  mkGui (core g) (line_visible g) d (annot g) (draws g).
Definition set_annot (a : annotation) (g : gui) : gui :=
  mkGui (core g) (line_visible g) (line_shown g) a (draws g).

(** [annot.set_visible(b)] *)
Definition annot_set_visible (b : bool) (g : gui) : gui :=
  set_annot (mkAnnot b (annot_xy (annot g)) (annot_text (annot g))) g.

(** [canvas.draw()] *)
Definition canvas_draw (g : gui) : gui :=
  mkGui (core g) (line_visible g) (line_shown g) (annot g) (S (draws g)).

(** [for key, line in lines.items():
       line.set_visible(line_visible[key].get())] *)
Fixpoint update_visibility_loop (ks : list text) (g : gui)
  : option gui_exn * gui :=
  match ks with
  | [] => (None, g)
  | key :: rest =>
      match dict_get key (line_visible g) with
      | Some b =>
          update_visibility_loop
            rest (set_line_shown (dict_set key b (line_shown g)) g)
      | None => (Some (GKeyError key), g)
      end
  end.

Definition update_visibility (g : gui) : option gui_exn * gui :=
  update_visibility_loop (keys (lines (core g))) g.

(** [update_annot(ind, key)] (lines 91-96) *)
Definition update_annot (ind : list nat) (key : text) (g : gui)
  : option gui_exn * gui :=
  match dict_get key (lines (core g)) with
  | None => (Some (GKeyError key), g)
  | Some (x, y) =>
      match ind with
      | [] => (Some IndexError, g)
      | i :: _ =>
          match nth_error x i, nth_error y i with
          | Some xi, Some yi =>
              (None,
               set_annot (mkAnnot (annot_visible (annot g)) (xi, yi)
                                  (Some (key, xi, yi))) g)
          | _, _ => (Some IndexError, g)
          end
      end
  end.

(** The [for] of [on_move] (lines 103-110): [Some r] when it returns
    or raises inside the loop, [None] when the loop runs out. *)
Fixpoint on_move_lines (event : mouse_event) (ks : list text) (g : gui)
  : option (option gui_exn * gui) :=
  match ks with
  | [] => None
  | key :: rest =>
      match dict_get key (line_visible g) with
      | None => Some (Some (GKeyError key), g)
      | Some true =>
          let (cont, ind) := contains_at event key in
          if cont then
            match update_annot ind key g with
            | (None, g1) => Some (None, canvas_draw (annot_set_visible true g1))
            | (Some e, g1) => Some (Some e, g1)
            end
          else on_move_lines event rest g
      | Some false => on_move_lines event rest g
      end
  end.

(** [on_move(event)] (lines 100-113) *)
Definition on_move (event : mouse_event) (g : gui) : option gui_exn * gui :=
  let vis := annot_visible (annot g) in
  match (if inaxes event
         then on_move_lines event (keys (lines (core g))) g
         else None) with
  | Some r => r
  | None =>
      if vis then (None, canvas_draw (annot_set_visible false g))
      else (None, g)
  end.

(** The click on the check box of [key]: tkinter flips the variable,
    then runs [update_visibility] (lines 64-68). *)
Definition toggle (key : text) (g : gui) : option gui_exn * gui :=
  match dict_get key (line_visible g) with
  | Some b =>
      update_visibility
        (set_line_visible (dict_set key (negb b) (line_visible g)) g)
  | None => (Some (GKeyError key), g)
  end.

(** The chart at start-up (lines 56-81): every box ticked, every curve
    shown, the annotation hidden. *)
Definition initial_gui : gui :=
  {| core := initial_state;
     line_visible := map (fun k => (k, true)) (keys (data_dict_init (V:=V)));
     line_shown := map (fun k => (k, true)) (keys (data_dict_init (V:=V)));
     annot := mkAnnot false (0, of_int 0) None;
     draws := 0 |}.

(** [update_plot] with its last two statements, [update_visibility()]
    and [canvas.draw()] (lines 165-166), which the paused return
    skips. *)
Definition update_plot_chart (frame : nat) (g : gui) : option gui_exn * gui :=
  match update_plot frame (core g) with
  | (Raise e, c) => (Some (CoreError e), set_core c g)
  | (Ok _, c) =>
      if paused (core g) then (None, set_core c g)
      else match update_visibility (set_core c g) with
           | (None, g1) => (None, canvas_draw g1)
           | (Some e, g1) => (Some e, g1)
           end
  end.

End Chart.

Arguments annotation : clear implicits.
Arguments gui : clear implicits.

(** * Properties *)

Unset Implicit Arguments.

(** ** The model on concrete inputs *)

Example utf8_decode_examples :
  utf8_decode [195; 169]%N = Some [233]%N
  /\ utf8_decode [226; 130; 172]%N = Some [8364]%N
  /\ utf8_decode [240; 159; 152; 128]%N = Some [128512]%N
  /\ utf8_decode [192; 128]%N = None
  /\ utf8_decode [237; 160; 128]%N = None
  /\ utf8_decode [244; 144; 128; 128]%N = None
  /\ utf8_decode [128]%N = None
  /\ utf8_decode [226; 130]%N = None.
Proof. repeat split. Qed.

Example strip_split_examples :
  strip (txt "  a b  ") = txt "a b"
  /\ split comma (txt "a,,b") = [txt "a"; []; txt "b"]
  /\ split comma [] = [[]]
  /\ split_1 colon (txt "k:v:w") = [txt "k"; txt "v:w"]
  /\ split_1 colon (txt "kv") = [txt "kv"].
Proof. repeat split. Qed.

Example float_examples :
  map (fun s => float (txt s))
      ["5"; "abc"; "12.5"; "-100"; " 1_0.5e-1 "; "1e3"; ".5"; "5."; ".";
       "1__0"; "-Inf"; "nAn"; "1e"; ""; "+7"; "--7"]%string
  = [Some (num 5); None; Some (Fin (Qmake 25 2)); Some (num (-100));
     Some (Fin (Qmake 21 20)); Some (num 1000); Some (Fin (Qmake 1 2));
     Some (num 5); None; None; Some NegInf; Some NaN; None; None;
     Some (num 7); None].
Proof. vm_compute. reflexivity. Qed.

(** A full line gives its three pairs. *)
Example three_pairs :
  fst (parse_entries
         (split comma
                (txt "current_speed:12.5,current_duty:0.4,target_speed:12.0"))
         [] (initial_state (V:=pyfloat)))
  = Ok [(txt "current_speed", Fin (Qmake 25 2));
        (txt "current_duty", Fin (Qmake 2 5));
        (txt "target_speed", num 12)].
Proof. vm_compute. reflexivity. Qed.

(** A key that is not recognized gives no pair. *)
Example unrecognized_key :
  fst (parse_entries (split comma (txt "foo:1.0")) []
                     (initial_state (V:=pyfloat)))
  = Ok [].
Proof. vm_compute. reflexivity. Qed.

(** A line that is not UTF-8 is reported and skipped; the next line is
    processed. *)
Example undecodable_line :
  let st :=
    snd (update_plot 0 (set_ser ([xff; x0a] ++ bytes ("target_speed:5" ++ LF))
                                (initial_state (V:=pyfloat)))) in
  stdout st = [ParseErrorMsg (UnicodeDecodeError [xff; x0a])]
  /\ dict_get (txt "target_speed") (data_dict st) = Some [num 5]
  /\ data_rows st = [[CNum (num 5)]]
  /\ ser st = [].
Proof. vm_compute. repeat split. Qed.

(** The file saved ends at the last row that has a cell: the empty row
    a line without pairs appends is written only if a row with a cell
    follows it. *)
Example saved_file_examples :
  wb_save (run [Receive (bytes ("foo" ++ LF)); Tick 0]
               (initial_state (V:=pyfloat)))
  = [header]
  /\ wb_save (run [Receive (bytes ("foo" ++ LF ++ "target_speed:5" ++ LF));
                   Tick 0] (initial_state (V:=pyfloat)))
     = [header; []; [CNum (num 5)]].
Proof. vm_compute. split; reflexivity. Qed.

(** A value that is infinite is stored and exported, and then makes
    [ax.set_ylim] raise out of the tick. *)
Example infinite_value :
  let r := update_plot 0 (started_with ("target_speed:inf" ++ LF)) in
  fst r = Raise (ValueError (txt "Axis limits cannot be NaN or Inf"))
  /\ dict_get (txt "target_speed") (data_dict (snd r)) = Some [PosInf]
  /\ stdout (snd r) = [].
Proof. vm_compute. repeat split. Qed.

(** One value more than [MAX_POINTS] pushes the first one out. *)
Example window_slides :
  let data :=
    concat (repeat (bytes ("target_speed:1" ++ LF)) MAX_POINTS)
    ++ bytes ("target_speed:2" ++ LF) in
  dict_get (txt "target_speed")
           (data_dict (snd (update_plot 0 (set_ser data initial_state))))
  = Some (repeat (num 1) (MAX_POINTS - 1) ++ [num 2]).
Proof. vm_compute. reflexivity. Qed.

(** ** Text and dictionaries *)

Lemma text_eqb_eq (a b : text) : text_eqb a b = true <-> a = b.
Proof.
  revert b; induction a as [|x a IH]; intros [|y b]; simpl;
    try (split; intros; [reflexivity || discriminate ..]).
  rewrite andb_true_iff, N.eqb_eq, IH. split.
  - intros [-> ->]; reflexivity.
  - intros E; inversion E; auto.
Qed.

Lemma text_eqb_refl (a : text) : text_eqb a a = true.
Proof. apply text_eqb_eq; reflexivity. Qed.

Lemma text_eqb_neq (a b : text) : text_eqb a b = false <-> a <> b.
Proof.
  rewrite <- text_eqb_eq. destruct (text_eqb a b); split; congruence.
Qed.

Section DictFacts.

Variable A : Type.
Implicit Types (d : dict A) (k : text) (v : A).

Lemma dict_get_set_same k v d : dict_get k (dict_set k v d) = Some v.
Proof.
  induction d as [|[k' v'] d IH]; simpl.
  - now rewrite text_eqb_refl.
  - destruct (text_eqb k k') eqn:E; simpl; rewrite E; auto.
Qed.

Lemma dict_get_set_other k k' v d :
  text_eqb k' k = false -> dict_get k' (dict_set k v d) = dict_get k' d.
Proof.
  intros N. induction d as [|[k0 v0] d IH]; simpl.
  - now rewrite N.
  - destruct (text_eqb k k0) eqn:E; simpl.
    + apply text_eqb_eq in E; subst k0. now rewrite N.
    + now rewrite IH.
Qed.

Lemma dict_mem_In k d : dict_mem k d = true <-> In k (keys d).
Proof.
  unfold dict_mem. induction d as [|[k' v'] d IH]; simpl.
  - split; [discriminate | tauto].
  - destruct (text_eqb k k') eqn:E.
    + apply text_eqb_eq in E; subst. tauto.
    + rewrite IH. apply text_eqb_neq in E. split; [tauto|].
      intros [H|H]; [congruence | exact H].
Qed.

Lemma dict_mem_recognized k d : dict_mem k d = recognized (keys d) k.
Proof.
  unfold dict_mem, recognized. induction d as [|[k' v'] d IH]; simpl; auto.
  destruct (text_eqb k k'); simpl; auto.
Qed.

Lemma recognized_In ks k : recognized ks k = true <-> In k ks.
Proof.
  unfold recognized. rewrite existsb_exists. split.
  - intros [x [Hx E]]. apply text_eqb_eq in E; subst; auto.
  - intros H; exists k; split; auto using text_eqb_refl.
Qed.

Lemma keys_dict_set_present k v d :
  dict_mem k d = true -> keys (dict_set k v d) = keys d.
Proof.
  unfold dict_mem. induction d as [|[k' v'] d IH]; simpl; [discriminate|].
  destruct (text_eqb k k') eqn:E; simpl; auto.
  intros H. now rewrite IH.
Qed.

Lemma keys_dict_set_absent k v d :
  dict_mem k d = false -> keys (dict_set k v d) = keys d ++ [k].
Proof.
  unfold dict_mem. induction d as [|[k' v'] d IH]; simpl; auto.
  destruct (text_eqb k k') eqn:E; simpl; [discriminate|].
  intros H. now rewrite IH.
Qed.

Lemma dict_set_set k v v' d :
  dict_set k v (dict_set k v' d) = dict_set k v d.
Proof.
  induction d as [|[k0 v0] d IH]; simpl.
  - now rewrite text_eqb_refl.
  - destruct (text_eqb k k0) eqn:E; simpl; rewrite E; auto.
    now rewrite IH.
Qed.

Lemma dict_set_NoDup k v d : NoDup (keys d) -> NoDup (keys (dict_set k v d)).
Proof.
  intros H. destruct (dict_mem k d) eqn:E.
  - now rewrite keys_dict_set_present.
  - rewrite keys_dict_set_absent by assumption.
    apply NoDup_app; auto.
    + constructor; [simpl; tauto | constructor].
    + intros x Hx [<-|[]]. apply dict_mem_In in Hx. congruence.
Qed.

Lemma dict_get_None k d : dict_get k d = None <-> ~ In k (keys d).
Proof.
  rewrite <- dict_mem_In. unfold dict_mem.
  destruct (dict_get k d); split; congruence.
Qed.

End DictFacts.

(** ** The loop body computes [step_line] *)

Section Refinement.

Context {V : Type} `{FV : PyFloat V}.
Implicit Types (st : state V) (d : dict (list V)) (td : dict V).

Lemma bind_eq A B (m : M V A) (k : A -> M V B) st :
  bind m k st =
  match m st with
  | (Ok a, st') => k a st'
  | (Raise e, st') => (Raise e, st')
  end.
Proof. reflexivity. Qed.

Lemma state_eta st :
  mkState (paused st) (ser st) (data_dict st) (ws st) (lines st) (xlim st)
          (ylim st) (stdout st) = st.
Proof. destruct st; reflexivity. Qed.

Lemma set_data_dict_same st : set_data_dict (data_dict st) st = st.
Proof. apply state_eta. Qed.

Lemma parse_entries_pure entries td st :
  parse_entries entries td st =
  (parse_pure (keys (data_dict st)) entries td, st).
Proof.
  revert td. induction entries as [|entry rest IH]; intros td; simpl; auto.
  destruct (contains colon entry); [|apply IH].
  rewrite bind_eq.
  destruct (split_1 colon entry) as [|k [|v [|x l]]]; simpl; auto.
  rewrite bind_eq. unfold to_float.
  destruct (float (strip v)) as [x|]; simpl; auto.
  rewrite bind_eq; simpl. rewrite dict_mem_recognized.
  destruct (recognized (keys (data_dict st)) (strip k)); apply IH.
Qed.

Lemma parse_pure_keys ks entries td td' :
  parse_pure ks entries td = Ok td' ->
  (forall k, In k (keys td) -> In k ks) ->
  forall k, In k (keys td') -> In k ks.
Proof.
  revert td. induction entries as [|entry rest IH]; intros td; simpl.
  - intros E; inversion E; subst; auto.
  - destruct (contains colon entry); [|apply IH].
    destruct (split_1 colon entry) as [|k [|v [|x l]]]; try discriminate.
    destruct (float (strip v)) as [x|]; try discriminate.
    destruct (recognized ks (strip k)) eqn:R; [|apply IH].
    intros E Htd. apply (IH _ E). intros k0 Hk0.
    destruct (dict_mem (strip k) td) eqn:Mm.
    + rewrite keys_dict_set_present in Hk0 by assumption. auto.
    + rewrite keys_dict_set_absent in Hk0 by assumption.
      apply in_app_or in Hk0 as [Hk0|[<-|[]]]; auto.
      now apply recognized_In.
Qed.

Lemma parse_pure_NoDup ks entries td td' :
  parse_pure ks entries td = Ok td' ->
  NoDup (keys td) -> NoDup (keys td').
Proof.
  revert td. induction entries as [|entry rest IH]; intros td; simpl.
  - intros E; inversion E; subst; auto.
  - destruct (contains colon entry); [|apply IH].
    destruct (split_1 colon entry) as [|k [|v [|x l]]]; try discriminate.
    destruct (float (strip v)) as [x|]; try discriminate.
    destruct (recognized ks (strip k)); [|apply IH].
    intros E Htd. apply (IH _ E). now apply dict_set_NoDup.
Qed.

Lemma dict_mem_set_keep (A : Type) k k' (v : A) (d : dict A) :
  dict_mem k' d = true -> dict_mem k' (dict_set k v d) = true.
Proof.
  intros H. destruct (dict_mem k d) eqn:E.
  - apply dict_mem_In. rewrite keys_dict_set_present by assumption.
    now apply dict_mem_In.
  - apply dict_mem_In. rewrite keys_dict_set_absent by assumption.
    apply in_or_app; left. now apply dict_mem_In.
Qed.

Lemma keys_record_all items d : keys (record_all items d) = keys d.
Proof.
  revert d. induction items as [|[k v] rest IH]; intros d; simpl; auto.
  rewrite IH. destruct (dict_get k d) eqn:E; auto.
  apply keys_dict_set_present. unfold dict_mem. now rewrite E.
Qed.

Lemma getitem_ok key st buf :
  dict_get key (data_dict st) = Some buf -> getitem key st = (Ok buf, st).
Proof. intros E. unfold getitem. rewrite bind_eq; simpl. now rewrite E. Qed.

Lemma update_items_spec items row st :
  (forall k, In k (keys items) -> dict_mem k (data_dict st) = true) ->
  update_items items row st =
  (Ok (row ++ values items),
   set_data_dict (record_all items (data_dict st)) st).
Proof.
  revert row st. induction items as [|[k v] rest IH]; intros row st Hk; simpl.
  - unfold ret. now rewrite app_nil_r, set_data_dict_same.
  - assert (Hm : dict_mem k (data_dict st) = true) by (apply Hk; simpl; auto).
    unfold dict_mem in Hm.
    destruct (dict_get k (data_dict st)) as [buf|] eqn:E; [|discriminate].
    rewrite bind_eq, (getitem_ok _ _ _ E).
    rewrite bind_eq. unfold setitem at 1, modify at 1.
    rewrite bind_eq.
    erewrite getitem_ok by (simpl; apply dict_get_set_same).
    rewrite bind_eq.
    set (st1 := set_data_dict (dict_set k (buf ++ [v]) (data_dict st)) st).
    assert (Hstep :
      (if Nat.ltb MAX_POINTS (length (buf ++ [v]))
       then setitem k (tl (buf ++ [v])) else ret tt) st1
      = (Ok tt, set_data_dict (dict_set k (record buf v) (data_dict st)) st)).
    { unfold record; cbv zeta.
      destruct (Nat.ltb MAX_POINTS (length (buf ++ [v]))).
      - unfold setitem, modify, st1; simpl. now rewrite dict_set_set.
      - reflexivity. }
    rewrite Hstep. rewrite IH.
    + simpl. now rewrite <- app_assoc.
    + intros k0 Hk0. simpl. apply dict_mem_set_keep. apply Hk; simpl; auto.
Qed.

End Refinement.

Section LoopFacts.

Context {V : Type} `{FV : PyFloat V}.
Implicit Types (st : state V) (d : dict (list V)) (td : dict V).

Lemma loop_body_step st :
  loop_body st =
  (Ok tt, step_line (fst (readline_split (ser st)))
                    (set_ser (snd (readline_split (ser st))) st)).
Proof.
  unfold loop_body, try_except, try_block.
  rewrite bind_eq. unfold readline.
  destruct (readline_split (ser st)) as [raw rest]; cbn [fst snd].
  rewrite bind_eq. unfold decode, step_line, line_result.
  cbn [data_dict set_ser].
  destruct (utf8_decode (map to_N raw)) as [s|]; cbn [ret raise is_ValueError];
    [|reflexivity].
  destruct (strip s) as [|c line] eqn:Es; [reflexivity|].
  generalize (split comma (c :: line)); intros entries.
  rewrite bind_eq, parse_entries_pure. cbn [data_dict set_ser].
  destruct (parse_pure (keys (data_dict st)) entries []) as [td|e] eqn:Ep.
  - rewrite bind_eq, update_items_spec.
    + reflexivity.
    + intros k Hk. apply dict_mem_In.
      apply (parse_pure_keys _ _ _ _ Ep); [intros ? []|exact Hk].
  - destruct (is_ValueError e); reflexivity.
Qed.

Lemma read_lines_unfold (buf : list byte) :
  buf <> [] ->
  read_lines buf =
  fst (readline_split buf) :: read_lines (snd (readline_split buf)).
Proof.
  induction buf as [|b r IH]; [congruence|]. intros _. simpl.
  destruct (N.eqb (to_N b) newline); [reflexivity|].
  destruct r as [|b' r']; [reflexivity|].
  rewrite IH by discriminate.
  destruct (readline_split (b' :: r')) as [l r'']. reflexivity.
Qed.

Lemma readline_split_length (buf : list byte) :
  buf <> [] -> length (snd (readline_split buf)) < length buf.
Proof.
  induction buf as [|b r IH]; [congruence|]. intros _. simpl.
  destruct (N.eqb (to_N b) newline); simpl; [lia|].
  destruct r as [|b' r']; [simpl; lia|].
  specialize (IH ltac:(discriminate)).
  destruct (readline_split (b' :: r')) as [l r'']. simpl in *. lia.
Qed.

Lemma step_line_set_ser raw x st :
  step_line raw (set_ser x st) = set_ser x (step_line raw st).
Proof.
  unfold step_line; simpl.
  destruct (line_result (keys (data_dict st)) raw) as [[td|]|e]; reflexivity.
Qed.

Lemma fold_step_set_ser raws x st :
  fold_left (fun s raw => step_line raw s) raws (set_ser x st) =
  set_ser x (fold_left (fun s raw => step_line raw s) raws st).
Proof.
  revert st. induction raws as [|raw raws IH]; intros st; simpl; auto.
  now rewrite step_line_set_ser, IH.
Qed.

Lemma ser_step_line raw st : ser (step_line raw st) = ser st.
Proof.
  unfold step_line.
  destruct (line_result (keys (data_dict st)) raw) as [[td|]|e]; reflexivity.
Qed.

Lemma paused_fold_step raws st :
  paused (fold_left (fun s raw => step_line raw s) raws st) = paused st.
Proof.
  revert st. induction raws as [|raw raws IH]; intros st; simpl; auto.
  rewrite IH. unfold step_line.
  destruct (line_result (keys (data_dict st)) raw) as [[td|]|e]; reflexivity.
Qed.

Lemma lines_fold_step raws st :
  lines (fold_left (fun s raw => step_line raw s) raws st) = lines st.
Proof.
  revert st. induction raws as [|raw raws IH]; intros st; simpl; auto.
  rewrite IH. unfold step_line.
  destruct (line_result (keys (data_dict st)) raw) as [[td|]|e]; reflexivity.
Qed.

Lemma set_ser_nil st : ser st = [] -> set_ser [] st = st.
Proof. destruct st; simpl; intros ->; reflexivity. Qed.

(** The loop runs [step_line] over the buffered lines and leaves the
    port drained, whenever the fuel covers the buffered bytes. *)
Lemma while_in_waiting_spec fuel st :
  length (ser st) <= fuel ->
  while_in_waiting fuel st =
  (Ok tt,
   set_ser [] (fold_left (fun s raw => step_line raw s)
                         (read_lines (ser st)) st)).
Proof.
  revert st. induction fuel as [|fuel IH]; intros st Hf.
  - assert (E : ser st = []) by (destruct (ser st); simpl in *; [auto | lia]).
    simpl. rewrite E. simpl. now rewrite set_ser_nil.
  - simpl. rewrite bind_eq. simpl. unfold in_waiting.
    destruct (ser st) as [|b r] eqn:E.
    + simpl. rewrite set_ser_nil; auto.
    + change (Nat.eqb (length (b :: r)) 0) with false. cbv iota.
      rewrite bind_eq, loop_body_step, E.
      assert (Hne : b :: r <> []) by discriminate.
      pose proof (readline_split_length _ Hne) as Hl.
      rewrite IH by (rewrite ser_step_line; simpl in *; lia).
      rewrite ser_step_line. simpl ser.
      rewrite (read_lines_unfold _ Hne). simpl fold_left.
      now rewrite step_line_set_ser, !fold_step_set_ser.
Qed.

Lemma while_in_waiting_drains st :
  exists st', while_in_waiting (in_waiting st) st = (Ok tt, st')
              /\ in_waiting st' = 0.
Proof.
  eexists; split; [apply while_in_waiting_spec; unfold in_waiting; lia|].
  reflexivity.
Qed.

(** *** Rendering touches neither the buffers nor the worksheet *)

Lemma same_store_refl st : same_store st st.
Proof. repeat split. Qed.

Lemma same_store_trans st1 st2 st3 :
  same_store st1 st2 -> same_store st2 st3 -> same_store st1 st3.
Proof. unfold same_store. intuition congruence. Qed.

Lemma keeps_ret A (a : A) : keeps_store (V:=V) (ret a).
Proof. intros st; apply same_store_refl. Qed.

Lemma keeps_raise A e : keeps_store (V:=V) (raise (A:=A) e).
Proof. intros st; apply same_store_refl. Qed.

Lemma keeps_get : keeps_store (V:=V) get.
Proof. intros st; apply same_store_refl. Qed.

Lemma keeps_bind A B (m : M V A) (k : A -> M V B) :
  keeps_store (V:=V) m ->
  (forall a, keeps_store (V:=V) (k a)) ->
  keeps_store (V:=V) (bind m k).
Proof.
  intros Hm Hk st. rewrite bind_eq. specialize (Hm st).
  destruct (m st) as [[a|e] st1]; simpl in *; auto.
  eapply same_store_trans; [exact Hm | apply Hk].
Qed.

Lemma keeps_modify (f : state V -> state V) :
  (forall st, same_store st (f st)) -> keeps_store (V:=V) (modify f).
Proof. intros H st; apply H. Qed.

Lemma keeps_getitem key : keeps_store (V:=V) (getitem key).
Proof.
  unfold getitem. apply keeps_bind; [apply keeps_get|]. intros st.
  destruct (dict_get key (data_dict st)); [apply keeps_ret|apply keeps_raise].
Qed.

Lemma keeps_or_raise A (o : option A) e : keeps_store (V:=V) (or_raise o e).
Proof. destruct o; [apply keeps_ret|apply keeps_raise]. Qed.

Lemma keeps_render_lines ks : keeps_store (V:=V) (render_lines ks).
Proof.
  induction ks as [|key rest IH]; simpl; [apply keeps_ret|].
  apply keeps_bind; [apply keeps_getitem|]. intros y_data.
  apply keeps_bind; [apply keeps_modify; intros st; repeat split|]. intros _.
  apply keeps_bind; [|intros _; exact IH].
  destruct y_data; [apply keeps_ret|].
  apply keeps_bind; [apply keeps_modify; intros st; repeat split|]. intros _.
  apply keeps_bind; [apply keeps_get|]. intros st.
  apply keeps_bind; [apply keeps_or_raise|]. intros y_min.
  apply keeps_bind; [apply keeps_or_raise|]. intros y_max.
  unfold ax_set_ylim. destruct (isfinite y_min && isfinite y_max);
    [apply keeps_modify; intros st'; repeat split | apply keeps_raise].
Qed.

End LoopFacts.

(** ** A run of events as a fold over the lines it reads *)

Section RunFacts.

Context {V : Type} `{FV : PyFloat V}.
Implicit Types (st : state V) (d : dict (list V)) (td : dict V).

Lemma update_plot_paused frame st :
  paused st = true -> update_plot frame st = (Ok tt, st).
Proof.
  intros H. unfold update_plot. rewrite bind_eq. simpl. now rewrite H.
Qed.

Lemma update_plot_running frame st :
  paused st = false ->
  update_plot frame st =
  render_lines
    (keys (lines st))
    (set_ser [] (fold_left (fun s raw => step_line raw s)
                           (read_lines (ser st)) st)).
Proof.
  intros H. unfold update_plot. rewrite bind_eq. simpl. rewrite H.
  rewrite bind_eq, while_in_waiting_spec by (unfold in_waiting; lia).
  rewrite bind_eq. cbn [get lines set_ser]. now rewrite lines_fold_step.
Qed.

Lemma store_step_line raw st :
  store_of (step_line raw st) = step_store raw (store_of st).
Proof.
  unfold store_of, step_line, step_store; simpl.
  destruct (line_result (keys (data_dict st)) raw) as [[td|]|e]; reflexivity.
Qed.

Lemma store_fold_step raws st :
  store_of (fold_left (fun s raw => step_line raw s) raws st) =
  fold_left (fun dw raw => step_store raw dw) raws (store_of st).
Proof.
  revert st. induction raws as [|raw raws IH]; intros st; simpl; auto.
  now rewrite IH, store_step_line.
Qed.

Lemma tick_running frame st :
  paused st = false ->
  paused (handle (Tick frame) st) = false
  /\ ser (handle (Tick frame) st) = []
  /\ store_of (handle (Tick frame) st) =
     fold_left (fun dw raw => step_store raw dw) (read_lines (ser st))
               (store_of st).
Proof.
  intros H. simpl. rewrite (update_plot_running _ _ H).
  match goal with
  | |- context [render_lines ?ks ?s] =>
      destruct (keeps_render_lines ks s) as (Hp & Hs & Hd & Hw & _)
  end.
  unfold store_of. rewrite Hp, Hs, Hd, Hw.
  cbn [paused ser data_dict ws set_ser].
  rewrite paused_fold_step. repeat split; auto.
  apply (store_fold_step (read_lines (ser st)) st).
Qed.

(** The buffers and the worksheet after a run are the fold of
    [step_store] over the lines its ticks read. *)
Lemma run_store evs st :
  store_of (run evs st) =
  fold_left (fun dw raw => step_store raw dw)
            (lines_read evs (paused st) (ser st)) (store_of st).
Proof.
  revert st. induction evs as [|ev evs IH]; intros st; [reflexivity|].
  change (run (ev :: evs) st) with (run evs (handle ev st)).
  rewrite IH. destruct ev as [frame| | |data]; cbn [lines_read].
  - destruct (paused st) eqn:P.
    + simpl handle. rewrite (update_plot_paused _ _ P). simpl. now rewrite P.
    + destruct (tick_running frame st P) as (Hp & Hs & Hst).
      rewrite Hp, Hs, Hst. now rewrite fold_left_app.
  - reflexivity.
  - reflexivity.
  - reflexivity.
Qed.

Lemma keys_step_store raw dw : keys (fst (step_store raw dw)) = keys (fst dw).
Proof.
  unfold step_store.
  destruct (line_result (keys (fst dw)) raw) as [[td|]|e]; auto.
  apply keys_record_all.
Qed.

Lemma keys_fold_step_store raws dw :
  keys (fst (fold_left (fun dw raw => step_store raw dw) raws dw)) =
  keys (fst dw).
Proof.
  revert dw. induction raws as [|raw raws IH]; intros dw; simpl; auto.
  now rewrite IH, keys_step_store.
Qed.

(** The worksheet only grows, by the rows of the lines read. *)
Lemma ws_fold_step_store raws dw :
  snd (fold_left (fun dw raw => step_store raw dw) raws dw) =
  snd dw ++ rows_of (keys (fst dw)) raws.
Proof.
  revert dw. induction raws as [|raw raws IH]; intros dw; simpl.
  - now rewrite app_nil_r.
  - rewrite IH, keys_step_store. unfold step_store.
    destruct (line_result (keys (fst dw)) raw) as [[td|]|e]; simpl; auto.
    now rewrite <- app_assoc.
Qed.

(** *** The rolling window *)

Lemma lastn_short (A : Type) n (l : list A) : length l <= n -> lastn n l = l.
Proof.
  intros H. unfold lastn. replace (length l - n) with 0 by lia. reflexivity.
Qed.

Lemma length_lastn (A : Type) n (l : list A) :
  length (lastn n l) = Nat.min (length l) n.
Proof. unfold lastn. rewrite length_skipn. lia. Qed.

Lemma lastn_min (A : Type) n (l : list A) :
  lastn (Nat.min (length l) n) l = lastn n l.
Proof.
  unfold lastn. f_equal. lia.
Qed.

Lemma record_lastn (h : list V) (v : V) :
  record (lastn MAX_POINTS h) v = lastn MAX_POINTS (h ++ [v]).
Proof.
  pose proof (eq_refl : MAX_POINTS = 100) as HM.
  unfold record. cbv zeta.
  rewrite length_app, length_lastn. simpl length.
  destruct (Nat.ltb_spec MAX_POINTS (Nat.min (length h) MAX_POINTS + 1))
    as [Hlt|Hge].
  - assert (Hh : MAX_POINTS <= length h) by lia.
    unfold lastn. rewrite length_app. simpl length.
    replace (length h + 1 - MAX_POINTS) with (S (length h - MAX_POINTS))
      by lia.
    rewrite skipn_app.
    replace (S (length h - MAX_POINTS) - length h) with 0 by lia.
    simpl (skipn 0 _).
    change (tl (skipn (length h - MAX_POINTS) h ++ [v]))
      with (skipn 1 (skipn (length h - MAX_POINTS) h ++ [v])).
    rewrite skipn_app, skipn_skipn, length_skipn.
    replace (1 - (length h - (length h - MAX_POINTS))) with 0 by lia.
    reflexivity.
  - assert (Hh : length h < MAX_POINTS) by lia.
    rewrite (lastn_short _ MAX_POINTS h) by lia.
    rewrite lastn_short; [reflexivity|]. rewrite length_app; simpl; lia.
Qed.

Lemma record_all_get (m : text) (items : dict V) d buf :
  NoDup (keys items) ->
  dict_get m d = Some buf ->
  dict_get m (record_all items d) =
  Some (match dict_get m items with
        | Some v => record buf v
        | None => buf
        end).
Proof.
  revert d buf. induction items as [|[k v] rest IH]; intros d buf Hn Hd.
  - exact Hd.
  - inversion Hn as [|? ? Hnotin Hrest]; subst. simpl.
    destruct (text_eqb m k) eqn:E.
    + apply text_eqb_eq in E; subst k. rewrite Hd.
      rewrite (IH _ (record buf v) Hrest (dict_get_set_same _ _ _ _)).
      now rewrite (proj2 (dict_get_None _ m rest) Hnotin).
    + apply IH; auto.
      destruct (dict_get k d); auto.
      now rewrite dict_get_set_other.
Qed.

Lemma line_result_NoDup ks raw td :
  line_result ks raw = Ok (Some td) -> NoDup (keys td).
Proof.
  unfold line_result.
  destruct (utf8_decode (map to_N raw)) as [s|]; [|discriminate].
  destruct (strip s) as [|c line]; [discriminate|].
  destruct (parse_pure ks (split comma (c :: line)) []) as [td'|e] eqn:E;
    [|discriminate].
  intros H; inversion H; subst.
  apply (parse_pure_NoDup _ _ _ _ E). constructor.
Qed.

Lemma accepted_cons ks (m : text) raw raws :
  accepted ks m (raw :: raws) = accepted ks m [raw] ++ accepted ks m raws.
Proof. unfold accepted; simpl. now rewrite app_nil_r. Qed.

Lemma fold_step_store_get (m : text) raws dw (h : list V) :
  dict_get m (fst dw) = Some (lastn MAX_POINTS h) ->
  dict_get m (fst (fold_left (fun dw raw => step_store raw dw) raws dw)) =
  Some (lastn MAX_POINTS (h ++ accepted (keys (fst dw)) m raws)).
Proof.
  revert dw h. induction raws as [|raw raws IH]; intros dw h Hd.
  - simpl. now rewrite app_nil_r.
  - simpl fold_left.
    rewrite accepted_cons, app_assoc.
    replace (accepted (keys (fst dw)) m raws)
      with (accepted (keys (fst (step_store raw dw))) m raws)
      by (now rewrite keys_step_store).
    apply IH.
    unfold step_store, accepted. simpl flat_map.
    destruct (line_result (keys (fst dw)) raw) as [[td|]|e] eqn:E;
      rewrite ?app_nil_r; auto.
    cbn [fst].
    rewrite (record_all_get m td _ _ (line_result_NoDup _ _ _ E) Hd).
    destruct (dict_get m td) as [v|]; simpl.
    + now rewrite record_lastn.
    + now rewrite app_nil_r.
Qed.

End RunFacts.

(** ** What a line yields *)

Section ParseFacts.

Context {V : Type} `{FV : PyFloat V}.
Implicit Types (st : state V) (d : dict (list V)) (td : dict V).

(** A fragment whose value is not a float aborts the parsing loop. *)
Lemma parse_pure_value_fails ks entries td :
  existsb value_fails entries = true ->
  exists arg, parse_pure ks entries td = Raise (ValueError arg).
Proof.
  revert td. induction entries as [|entry rest IH]; intros td; simpl;
    [discriminate|].
  unfold value_fails at 1.
  destruct (contains colon entry); simpl; [|apply IH].
  destruct (split_1 colon entry) as [|k [|v [|x l]]]; simpl; eauto.
  destruct (float (strip v)); simpl; eauto.
  destruct (recognized ks (strip k)); apply IH.
Qed.

Lemma contains_partition1 sep (s : text) :
  contains sep s = true -> exists a b, partition1 sep s = Some (a, b).
Proof.
  unfold contains. induction s as [|c r IH]; simpl; [discriminate|].
  rewrite N.eqb_sym. destruct (N.eqb c sep); simpl; eauto.
  intros H. destruct (IH H) as (a & b & E). rewrite E. eauto.
Qed.

(** Without such a fragment the loop runs to its end and stores the
    pairs of the line one after the other. *)
Lemma parse_pure_no_failure ks entries td :
  existsb value_fails entries = false ->
  parse_pure ks entries td = Ok (fold_left set_pair (pairs_of ks entries) td).
Proof.
  revert td. induction entries as [|entry rest IH]; intros td; simpl; auto.
  intros H. apply orb_false_iff in H as [Hv Hr]. unfold value_fails in Hv.
  destruct (contains colon entry) eqn:Ec; [|now apply IH].
  destruct (contains_partition1 _ _ Ec) as (k & v & Ep).
  unfold split_1 in *. rewrite Ep in *. simpl in Hv.
  destruct (float (strip v)); [|discriminate].
  destruct (recognized ks (strip k)); now apply IH.
Qed.

(** When no fragment aborts it, the loop stores the pairs of the line
    one after the other. *)
Lemma parse_pure_pairs ks entries td td' :
  parse_pure ks entries td = Ok td' ->
  td' = fold_left set_pair (pairs_of ks entries) td.
Proof.
  revert td. induction entries as [|entry rest IH]; intros td; simpl.
  - intros E; inversion E; reflexivity.
  - destruct (contains colon entry); [|apply IH].
    destruct (split_1 colon entry) as [|k [|v [|x l]]]; try discriminate.
    destruct (float (strip v)); try discriminate.
    destruct (recognized ks (strip k)); simpl; apply IH.
Qed.

Lemma dict_mem_set (A : Type) x k (v : A) (t : dict A) :
  dict_mem x (dict_set k v t) = text_eqb x k || dict_mem x t.
Proof.
  unfold dict_mem. destruct (text_eqb x k) eqn:E.
  - apply text_eqb_eq in E; subst. now rewrite dict_get_set_same.
  - now rewrite dict_get_set_other.
Qed.

Lemma filter_filter (A : Type) (f g : A -> bool) l :
  filter f (filter g l) = filter (fun x => g x && f x) l.
Proof.
  induction l as [|x l IH]; simpl; auto.
  destruct (g x); simpl; [destruct (f x)|]; now rewrite IH.
Qed.

Lemma keys_fold_set_pair ps td :
  keys (fold_left set_pair ps td) =
  keys td ++ filter (fun k => negb (dict_mem k td)) (first_occ (map fst ps)).
Proof.
  revert td. induction ps as [|[k v] ps IH]; intros td; simpl.
  - now rewrite app_nil_r.
  - rewrite IH. unfold set_pair; cbn [fst snd].
    rewrite filter_filter.
    destruct (dict_mem k td) eqn:E; cbn [negb].
    + rewrite keys_dict_set_present by assumption. f_equal.
      apply filter_ext. intros x. rewrite dict_mem_set.
      destruct (text_eqb x k) eqn:Ex; simpl; auto.
    + rewrite keys_dict_set_absent by assumption.
      rewrite <- app_assoc. simpl. do 2 f_equal.
      apply filter_ext. intros x. rewrite dict_mem_set.
      destruct (text_eqb x k); reflexivity.
Qed.

Lemma dict_get_app (A : Type) k (a b : dict A) :
  dict_get k (a ++ b) =
  match dict_get k a with Some v => Some v | None => dict_get k b end.
Proof.
  induction a as [|[k' v'] a IH]; simpl; auto.
  destruct (text_eqb k k'); auto.
Qed.

Lemma dict_get_fold_set_pair k ps td :
  dict_get k (fold_left set_pair ps td) =
  match last_value k ps with Some v => Some v | None => dict_get k td end.
Proof.
  unfold last_value. revert td.
  induction ps as [|[k0 v0] ps IH]; intros td; simpl; auto.
  rewrite IH, dict_get_app. destruct (dict_get k (rev ps)); auto.
  unfold set_pair; simpl. destruct (text_eqb k k0) eqn:E.
  - apply text_eqb_eq in E; subst. apply dict_get_set_same.
  - now apply dict_get_set_other.
Qed.

Lemma values_by_keys td :
  NoDup (keys td) ->
  values td =
  flat_map (fun k => match dict_get k td with Some v => [v] | None => [] end)
           (keys td).
Proof.
  induction td as [|[k v] td IH]; simpl; auto.
  intros Hn. inversion Hn as [|? ? Hnotin Hrest]; subst.
  rewrite text_eqb_refl. simpl. f_equal.
  rewrite IH by assumption. rewrite !flat_map_concat_map. f_equal.
  apply map_ext_in. intros x Hx. destruct (text_eqb x k) eqn:E; auto.
  apply text_eqb_eq in E; subst. contradiction.
Qed.

End ParseFacts.

(** ** Rendering keeps the curves within the buffers *)

Section RenderFacts.

Context {V : Type} `{FV : PyFloat V}.
Implicit Types (st : state V) (d : dict (list V)).

Lemma y_range_defined d :
  d <> [] -> exists lo hi, y_min_of d = Some lo /\ y_max_of d = Some hi.
Proof.
  destruct d as [|[k b] d]; [congruence|]. intros _.
  unfold y_min_of, y_max_of. simpl. eauto.
Qed.

Lemma keys_dict_set_incl (A : Type) k (v : A) (t : dict A) x :
  In x (keys (dict_set k v t)) -> In x (keys t) \/ x = k.
Proof.
  destruct (dict_mem k t) eqn:E.
  - rewrite keys_dict_set_present by assumption. auto.
  - rewrite keys_dict_set_absent by assumption.
    intros H. apply in_app_or in H as [H|[<-|[]]]; auto.
Qed.

Lemma getitem_missing key st :
  dict_get key (data_dict st) = None ->
  getitem key st = (Raise (KeyError key), st).
Proof. intros E. unfold getitem. rewrite bind_eq; simpl. now rewrite E. Qed.

(** However the rendering loop ends, normally or by an exception, the
    only curves it can have added are those of the keys it went
    through. *)
Lemma render_lines_keys ks st k :
  In k (keys (lines (snd (render_lines ks st)))) ->
  In k (keys (lines st)) \/ In k ks.
Proof.
  revert st. induction ks as [|key rest IH]; intros st; [simpl; auto|].
  cbn [render_lines]. rewrite bind_eq.
  destruct (dict_get key (data_dict st)) as [y|] eqn:E.
  - rewrite (getitem_ok _ _ _ E).
    rewrite bind_eq. unfold modify at 1.
    set (st1 := set_lines _ st).
    assert (Hend : forall s, lines s = lines st1 ->
                     In k (keys (lines s)) ->
                     In k (keys (lines st)) \/ In k (key :: rest)).
    { intros s Hl Hk. rewrite Hl in Hk. unfold st1 in Hk.
      cbn [lines set_lines] in Hk.
      apply keys_dict_set_incl in Hk as [Hk| ->]; simpl; auto. }
    assert (Hrest : forall s, lines s = lines st1 ->
                     In k (keys (lines (snd (render_lines rest s)))) ->
                     In k (keys (lines st)) \/ In k (key :: rest)).
    { intros s Hl Hk. apply IH in Hk as [Hk|Hk]; [|simpl; auto].
      now apply (Hend s Hl). }
    rewrite bind_eq. destruct y as [|y0 y].
    + cbn [ret]. apply Hrest; reflexivity.
    + rewrite bind_eq. unfold modify at 1. rewrite bind_eq. cbn [get].
      rewrite bind_eq.
      destruct (y_min_of _) as [lo|]; cbn [or_raise ret raise];
        [|apply Hend; reflexivity].
      rewrite bind_eq.
      destruct (y_max_of _) as [hi|]; cbn [or_raise ret raise];
        [|apply Hend; reflexivity].
      unfold ax_set_ylim.
      destruct (isfinite lo && isfinite hi); cbn [modify raise];
        [apply Hrest; reflexivity|apply Hend; reflexivity].
  - rewrite (getitem_missing _ _ E). cbn [snd]. auto.
Qed.

Lemma renderable_handle ev st : renderable st -> renderable (handle ev st).
Proof.
  intros R. destruct ev as [frame| | |data]; try exact R.
  simpl. destruct (paused st) eqn:P.
  - now rewrite (update_plot_paused _ _ P).
  - rewrite (update_plot_running _ _ P).
    set (st1 := set_ser [] _).
    assert (Hk : keys (data_dict st1) = keys (data_dict st)).
    { unfold st1. cbn [data_dict set_ser].
      change (data_dict ?s) with (fst (store_of s)).
      rewrite store_fold_step. apply keys_fold_step_store. }
    assert (Hl : lines st1 = lines st).
    { unfold st1. cbn [lines set_ser]. apply lines_fold_step. }
    assert (Hin : forall k, In k (keys (lines st)) ->
                            dict_mem k (data_dict st1) = true).
    { intros k Hk'. apply dict_mem_In. rewrite Hk. apply dict_mem_In.
      now apply R. }
    destruct (keeps_render_lines (keys (lines st)) st1) as (_ & _ & Hd & _).
    intros k Hk'. rewrite Hd. apply Hin.
    apply render_lines_keys in Hk' as [Hk'|Hk'];
      [now rewrite <- Hl | exact Hk'].
Qed.

Lemma renderable_run evs st : renderable st -> renderable (run evs st).
Proof.
  revert st. induction evs as [|ev evs IH]; intros st R; [exact R|].
  apply (IH (handle ev st)). now apply renderable_handle.
Qed.

Lemma renderable_initial : renderable (V:=V) initial_state.
Proof. intros k Hk. simpl in Hk. apply dict_mem_In. exact Hk. Qed.

End RenderFacts.

(** * The claims *)

Section Claims.

Context {V : Type} {FV : PyFloat V}.
Implicit Types (st : state V) (d : dict (list V)) (td : dict V).

Lemma paused_run_store evs st :
  paused st = true ->
  Forall (fun ev => ev <> Resume) evs ->
  store_of (run evs st) = store_of st.
Proof.
  revert st. induction evs as [|ev evs IH]; intros st P F; [reflexivity|].
  inversion F as [|? ? Hev Hevs]; subst.
  change (run (ev :: evs) st) with (run evs (handle ev st)).
  destruct ev as [frame| | |data].
  - simpl handle. rewrite (update_plot_paused _ _ P). now apply IH.
  - rewrite IH; auto.
  - congruence.
  - rewrite IH; auto.
Qed.

Lemma rows_of_num ks raws :
  Forall (fun row => forallb is_num row = true) (rows_of (V:=V) ks raws).
Proof.
  unfold rows_of. induction raws as [|raw raws IH]; simpl; [constructor|].
  apply Forall_app; split; [|exact IH].
  destruct (line_result ks raw) as [[td|]|e]; constructor; [|constructor].
  induction (values td); simpl; auto.
Qed.

Lemma ws_run_initial evs :
  ws (run evs (initial_state (V:=V))) =
  header :: rows_of (keys (data_dict_init (V:=V))) (lines_read evs false []).
Proof.
  change (ws (run evs initial_state))
    with (snd (store_of (run evs (initial_state (V:=V))))).
  rewrite run_store, ws_fold_step_store. reflexivity.
Qed.

End Claims.

(** C5: while [paused] is true a tick returns at once with every
    global as it was (the buffers of [data_dict], the worksheet [ws]
    and even the unread bytes of the port), and any number of ticks and
    arrivals of bytes without a [resume] leaves the buffers and the
    worksheet unchanged. *)
Theorem C5_paused_tick_changes_nothing
        (V : Type) (FV : PyFloat V) (frame : nat) (st : state V) :
  paused st = true ->
  update_plot frame st = (Ok tt, st)
  /\ forall evs,
       Forall (fun ev => ev <> Resume) evs ->
       data_dict (run evs st) = data_dict st /\ ws (run evs st) = ws st.
Proof.
  intros P. split; [now apply update_plot_paused|].
  intros evs F. pose proof (paused_run_store evs st P F) as E.
  unfold store_of in E. inversion E. auto.
Qed.

Lemma C5_witness :
  let st := set_paused true (started_with ("target_speed:5" ++ LF)) in
  paused st = true
  /\ update_plot 0 st = (Ok tt, st)
  /\ forall evs,
       Forall (fun ev => ev <> Resume) evs ->
       data_dict (run evs st) = data_dict st /\ ws (run evs st) = ws st.
Proof.
  split; [reflexivity|].
  apply (C5_paused_tick_changes_nothing pyfloat pyfloat_ops 0). reflexivity.
Defined.

(** C8: the worksheet starts as the single header row, which lists
    [current_speed], [current_duty], [target_speed] in the order of
    [data_dict]; the file saved after any run has that header as its
    first row, followed by the data rows of the lines read up to the
    last one that has a cell, and every data row is made of numbers. *)
Theorem C8_header_is_first_row (V : Type) (FV : PyFloat V) (evs : list event) :
  ws (initial_state (V:=V)) = [header]
  /\ header (V:=V) = [CStr (txt "current_speed"); CStr (txt "current_duty");
                      CStr (txt "target_speed")]
  /\ hd_error (wb_save (run evs (initial_state (V:=V)))) = Some header
  /\ wb_save (run evs initial_state) =
     header :: drop_trailing_empty
                 (rows_of (keys (data_dict_init (V:=V)))
                          (lines_read evs false []))
  /\ Forall (fun row => forallb is_num row = true)
            (data_rows (run evs (initial_state (V:=V)))).
Proof.
  assert (E : wb_save (run evs initial_state) =
              header :: drop_trailing_empty
                          (rows_of (keys (data_dict_init (V:=V)))
                                   (lines_read evs false []))).
  { unfold wb_save. rewrite ws_run_initial. reflexivity. }
  split; [reflexivity|]. split; [reflexivity|].
  split; [now rewrite E|]. split; [exact E|].
  unfold data_rows. rewrite ws_run_initial. apply rows_of_num.
Qed.

Lemma record_at_capacity (V : Type) (old : list V) (v : V) :
  length old = MAX_POINTS -> record old v = tl old ++ [v].
Proof.
  intros H. unfold record. cbv zeta. rewrite length_app, H. simpl.
  destruct old; [discriminate|reflexivity].
Qed.

(** C2: after any run of the program, the buffer of a recognized
    metric [m] is the list of the last [min N MAX_POINTS] values
    accepted for [m], in arrival order, where [N] counts the accepted
    values; so it has [min N MAX_POINTS] items and never more than
    [MAX_POINTS].  And storing a value into a buffer that holds
    [MAX_POINTS] items drops its oldest item and puts the value
    last. *)
Theorem C2_fifo_window
        (V : Type) (FV : PyFloat V) (evs : list event) (m : text) :
  In m (keys (data_dict_init (V:=V))) ->
  exists buf,
    dict_get m (data_dict (run evs initial_state)) = Some buf
    /\ buf = lastn (Nat.min
                      (length (accepted (keys (data_dict_init (V:=V))) m
                                        (lines_read evs false [])))
                      MAX_POINTS)
                   (accepted (keys (data_dict_init (V:=V))) m
                             (lines_read evs false []))
    /\ length buf =
       Nat.min (length (accepted (keys (data_dict_init (V:=V))) m
                                 (lines_read evs false [])))
               MAX_POINTS
    /\ length buf <= MAX_POINTS
    /\ forall (st : state V) key v old row,
         dict_get key (data_dict st) = Some old ->
         length old = MAX_POINTS ->
         exists st',
           update_items [(key, v)] row st = (Ok (row ++ [v]), st')
           /\ dict_get key (data_dict st') = Some (tl old ++ [v]).
Proof.
  intros Hm.
  set (vs := accepted (keys (data_dict_init (V:=V))) m
                      (lines_read evs false [])).
  assert (H0 : dict_get m (fst (store_of (initial_state (V:=V)))) =
               Some (lastn MAX_POINTS [])).
  { simpl in Hm. destruct Hm as [<-|[<-|[<-|[]]]]; reflexivity. }
  pose proof (fold_step_store_get m (lines_read evs false []) _ [] H0) as E.
  rewrite <- (run_store evs initial_state) in E.
  simpl app in E. fold vs in E.
  exists (lastn MAX_POINTS vs). split; [exact E|].
  rewrite lastn_min, length_lastn. repeat split; [lia|].
  intros st key v old row Hget Hlen.
  rewrite update_items_spec.
  - eexists; split; [reflexivity|].
    cbn [data_dict set_data_dict record_all]. rewrite Hget.
    rewrite dict_get_set_same. now rewrite record_at_capacity.
  - intros k Hk. simpl in Hk. destruct Hk as [<-|[]].
    unfold dict_mem. now rewrite Hget.
Qed.

Lemma C2_witness :
  In (txt "target_speed") (keys (data_dict_init (V:=pyfloat)))
  /\ exists buf,
       dict_get (txt "target_speed")
                (data_dict
                   (run [Receive (bytes ("target_speed:5" ++ LF)); Tick 0;
                         Receive (bytes ("target_speed:6" ++ LF)); Tick 1]
                        initial_state)) = Some buf
       /\ buf = [num 5; num 6]
       /\ length buf <= MAX_POINTS.
Proof.
  split; [simpl; auto|].
  destruct (C2_fifo_window pyfloat pyfloat_ops
              [Receive (bytes ("target_speed:5" ++ LF)); Tick 0;
               Receive (bytes ("target_speed:6" ++ LF)); Tick 1]
              (txt "target_speed")) as (buf & H1 & H2 & _ & H4 & _).
  - simpl; auto.
  - exists buf. split; [exact H1|]. split; [|exact H4].
    rewrite H2. vm_compute. reflexivity.
Defined.

Section LineClaims.

Context {V : Type} {FV : PyFloat V}.
Implicit Types (st : state V) (d : dict (list V)) (td : dict V).

Lemma step_store_skipped ks raw dw :
  keys (fst dw) = ks -> line_ok ks raw = false -> step_store raw dw = dw.
Proof.
  intros <-. unfold line_ok, step_store.
  destruct (line_result (keys (fst dw)) raw) as [[td|]|e];
    [discriminate | discriminate | reflexivity].
Qed.

Lemma fold_step_store_filter ks raws dw :
  keys (fst dw) = ks ->
  fold_left (fun dw raw => step_store raw dw) raws dw =
  fold_left (fun dw raw => step_store raw dw) (filter (line_ok ks) raws) dw.
Proof.
  revert dw. induction raws as [|raw raws IH]; intros dw Hk; simpl; auto.
  destruct (line_ok ks raw) eqn:E; simpl.
  - apply IH. now rewrite keys_step_store.
  - rewrite (step_store_skipped ks raw dw Hk E). now apply IH.
Qed.

Lemma value_fails_blank : existsb value_fails (split comma []) = false.
Proof. reflexivity. Qed.

(** A line with a fragment whose value is not a float comes to a
    [ValueError], whatever else it holds. *)
Lemma line_result_value_fails ks raw s :
  utf8_decode (map to_N raw) = Some s ->
  existsb value_fails (split comma (strip s)) = true ->
  exists arg, line_result ks raw = Raise (ValueError arg).
Proof.
  intros Hd Hf. unfold line_result. rewrite Hd.
  destruct (strip s) as [|c line] eqn:Es.
  - rewrite value_fails_blank in Hf. discriminate.
  - destruct (parse_pure_value_fails ks _ [] Hf) as [arg Ha].
    exists arg. now rewrite Ha.
Qed.

Lemma line_result_parsed ks raw s td :
  utf8_decode (map to_N raw) = Some s ->
  strip s <> [] ->
  parse_pure ks (split comma (strip s)) [] = Ok td ->
  line_result ks raw = Ok (Some td).
Proof.
  intros Hd Hs Hp. unfold line_result. rewrite Hd.
  destruct (strip s) as [|c line]; [congruence|]. now rewrite Hp.
Qed.

End LineClaims.

(** C7: the loop never ends in an exception.  From any state it
    returns normally with the port drained, and the buffers and the
    worksheet it leaves are those produced by the lines that raise
    nothing, taken in order: a line that raises (undecodable bytes, a
    value that is not a float) is skipped and the lines before and
    after it keep their effect.  Each single iteration returns
    normally too. *)
Theorem C7_errors_stay_in_loop (V : Type) (FV : PyFloat V) (st : state V) :
  (exists st',
     while_in_waiting (in_waiting st) st = (Ok tt, st')
     /\ in_waiting st' = 0
     /\ store_of st' =
        fold_left (fun dw raw => step_store raw dw)
                  (filter (line_ok (keys (data_dict st))) (read_lines (ser st)))
                  (store_of st))
  /\ (exists st',
        loop_body st = (Ok tt, st')
        /\ (line_ok (keys (data_dict st)) (fst (readline_split (ser st)))
            = false -> store_of st' = store_of st)).
Proof.
  split.
  - eexists. split; [apply while_in_waiting_spec; unfold in_waiting; lia|].
    split; [reflexivity|].
    change (store_of (set_ser [] ?s)) with (store_of s).
    rewrite store_fold_step. now apply fold_step_store_filter.
  - eexists. split; [apply loop_body_step|].
    intros Hbad. rewrite store_step_line.
    now apply (step_store_skipped (keys (data_dict st))).
Qed.

(** C10: when the line read by an iteration decodes and one of its
    fragments has a value that is not a float, the iteration returns
    normally having printed one parse error, and the buffers and the
    worksheet are exactly as before: no fragment of the line, before
    or after the failing one, is applied. *)
Theorem C10_line_all_or_nothing
        (V : Type) (FV : PyFloat V) (st : state V) (s : text) :
  utf8_decode (map to_N (fst (readline_split (ser st)))) = Some s ->
  existsb value_fails (split comma (strip s)) = true ->
  exists arg st',
    loop_body st = (Ok tt, st')
    /\ data_dict st' = data_dict st
    /\ ws st' = ws st
    /\ ser st' = snd (readline_split (ser st))
    /\ stdout st' = stdout st ++ [ParseErrorMsg (ValueError arg)].
Proof.
  intros Hd Hf.
  destruct (line_result_value_fails (keys (data_dict st)) _ s Hd Hf)
    as [arg Ha].
  exists arg. eexists. split; [apply loop_body_step|].
  unfold step_line. cbn [data_dict set_ser]. rewrite Ha.
  repeat split.
Qed.

Lemma C10_witness :
  let st := started_with ("target_speed:5,current_speed:abc" ++ LF) in
  exists arg st',
    loop_body st = (Ok tt, st')
    /\ data_dict st' = data_dict st
    /\ ws st' = ws st
    /\ ser st' = snd (readline_split (ser st))
    /\ stdout st' = stdout st ++ [ParseErrorMsg (ValueError arg)].
Proof.
  apply (C10_line_all_or_nothing pyfloat pyfloat_ops
           (started_with ("target_speed:5,current_speed:abc" ++ LF))
           (txt ("target_speed:5,current_speed:abc" ++ LF)));
    vm_compute; reflexivity.
Defined.

(** C9 (as amended): when the line read by an iteration decodes to a
    non-blank line in which no fragment has a value that is not a
    float and which holds no recognized pair (fragments without a
    separator, or with a key that is not recognized and a value that
    is a float), the iteration appends the empty row to the worksheet
    and changes no buffer.  So a worksheet can hold more data rows
    than rows with a value: the line [foo] alone leaves the one data
    row [[]]. *)
Theorem C9_empty_row_appended
        (V : Type) (FV : PyFloat V) (st : state V) (s : text) :
  utf8_decode (map to_N (fst (readline_split (ser st)))) = Some s ->
  strip s <> [] ->
  existsb value_fails (split comma (strip s)) = false ->
  pairs_of (keys (data_dict st)) (split comma (strip s)) = [] ->
  loop_body st =
  (Ok tt, set_ws (ws st ++ [[]]) (set_ser (snd (readline_split (ser st))) st))
  /\ data_rows (run [Receive (bytes ("foo" ++ LF)); Tick 0]
                    (initial_state (V:=V))) = [[]]
  /\ data_dict (run [Receive (bytes ("foo" ++ LF)); Tick 0]
                    (initial_state (V:=V))) = data_dict_init.
Proof.
  intros Hd Hs Hf Hp.
  pose proof (parse_pure_no_failure (keys (data_dict st)) _ [] Hf) as E.
  rewrite Hp in E. cbn [fold_left] in E.
  split; [|split; reflexivity].
  rewrite loop_body_step. unfold step_line. cbn [data_dict set_ser].
  rewrite (line_result_parsed _ _ s [] Hd Hs E).
  cbn [record_all values map]. destruct st; reflexivity.
Qed.

Lemma C9_witness :
  let st := started_with ("foo:1.0, bar" ++ LF) in
  existsb (value_fails (V:=pyfloat)) (split comma (txt "foo:1.0, bar")) = false
  /\ pairs_of (keys (data_dict st)) (split comma (txt "foo:1.0, bar")) = []
  /\ loop_body st = (Ok tt, set_ws (ws st ++ [[]]) (set_ser [] st)).
Proof.
  split; [vm_compute; reflexivity|]. split; [vm_compute; reflexivity|].
  apply (C9_empty_row_appended pyfloat pyfloat_ops
           (started_with ("foo:1.0, bar" ++ LF))
           (txt ("foo:1.0, bar" ++ LF)));
    [vm_compute; reflexivity | vm_compute; discriminate
     | vm_compute; reflexivity | vm_compute; reflexivity].
Defined.

(** C9 as stated fails: the line [foo:bar] decodes, is not blank and
    holds no recognized pair (its only key is not recognized), yet the
    tick appends no row: [float] is applied to the value before the
    key is looked up, and its [ValueError] skips the line. *)
Lemma C9_counterexample :
  let st0 := started_with ("foo:bar" ++ LF) in
  utf8_decode (map to_N (fst (readline_split (ser st0))))
  = Some (txt ("foo:bar" ++ LF))
  /\ strip (txt ("foo:bar" ++ LF)) = txt "foo:bar"
  /\ pairs_of (keys (data_dict st0)) (split comma (txt "foo:bar")) = []
  /\ ws (snd (update_plot 0 st0)) = ws st0
  /\ data_rows (snd (update_plot 0 st0)) = []
  /\ stdout (snd (update_plot 0 st0))
     = [ParseErrorMsg (ValueError (txt "bar"))].
Proof. vm_compute. repeat split. Qed.

Section RowClaims.

Context {V : Type} {FV : PyFloat V}.
Implicit Types (st : state V) (d : dict (list V)) (td : dict V).

Lemma filter_all (A : Type) (l : list A) : filter (fun _ => true) l = l.
Proof. induction l as [|x l IH]; simpl; congruence. Qed.

(** The keys of a candidate set are the recognized keys of the line,
    each at the place of its first fragment. *)
Lemma parse_pure_key_order ks entries td :
  parse_pure ks entries [] = Ok td ->
  keys td = first_occ (map fst (pairs_of ks entries)).
Proof.
  intros E. rewrite (parse_pure_pairs _ _ _ _ E), keys_fold_set_pair.
  simpl. apply filter_all.
Qed.

(** Each key of a candidate set carries its last value on the line. *)
Lemma parse_pure_last_value ks entries td k :
  parse_pure ks entries [] = Ok td ->
  dict_get k td = last_value k (pairs_of ks entries).
Proof.
  intros E. rewrite (parse_pure_pairs _ _ _ _ E), dict_get_fold_set_pair.
  destruct (last_value k (pairs_of ks entries)); reflexivity.
Qed.

Lemma map_flat_map (A B C : Type) (g : B -> C) (f : A -> list B) l :
  map g (flat_map f l) = flat_map (fun x => map g (f x)) l.
Proof.
  induction l as [|x l IH]; simpl; auto. now rewrite map_app, IH.
Qed.

Lemma parse_pure_row ks entries td :
  parse_pure ks entries [] = Ok td ->
  map CNum (values td) = encounter_row ks entries.
Proof.
  intros E. unfold encounter_row.
  rewrite <- (parse_pure_key_order _ _ _ E).
  rewrite values_by_keys
    by (apply (parse_pure_NoDup _ _ _ _ E); constructor).
  rewrite map_flat_map. rewrite !flat_map_concat_map. f_equal.
  apply map_ext. intros k. rewrite (parse_pure_last_value _ _ _ k E).
  destruct (last_value k (pairs_of ks entries)); reflexivity.
Qed.

Lemma parse_pure_width ks entries td :
  NoDup ks ->
  parse_pure ks entries [] = Ok td ->
  length (values td) <= length ks.
Proof.
  intros Hn E. unfold values. rewrite length_map.
  rewrite <- (length_map fst td). fold (keys td).
  apply NoDup_incl_length.
  - apply (parse_pure_NoDup _ _ _ _ E). constructor.
  - intros k Hk. apply (parse_pure_keys _ _ _ _ E); [intros ? []|exact Hk].
Qed.

Lemma rows_of_width ks raws row :
  NoDup ks -> In row (rows_of (V:=V) ks raws) -> length row <= length ks.
Proof.
  intros Hn. unfold rows_of. rewrite in_flat_map. intros (raw & _ & Hrow).
  unfold line_result in Hrow.
  destruct (utf8_decode (map to_N raw)) as [s|]; [|destruct Hrow].
  destruct (strip s) as [|c line]; [destruct Hrow|].
  destruct (parse_pure ks (split comma (c :: line)) []) as [td|e] eqn:E;
    [|destruct Hrow].
  destruct Hrow as [<-|[]]. rewrite length_map.
  apply (parse_pure_width ks _ td Hn E).
Qed.

Lemma NoDup_keys_init : NoDup (keys (data_dict_init (V:=V))).
Proof.
  simpl. repeat constructor; simpl; intuition discriminate.
Qed.

(** What an iteration does with a line that decodes, is not blank and
    parses. *)
Lemma loop_body_parsed st s td :
  utf8_decode (map to_N (fst (readline_split (ser st)))) = Some s ->
  strip s <> [] ->
  fst (parse_entries (split comma (strip s)) [] st) = Ok td ->
  exists st',
    loop_body st = (Ok tt, st')
    /\ ws st' = ws st ++ [map CNum (values td)]
    /\ data_dict st' = record_all td (data_dict st).
Proof.
  intros Hd Hs Hp. rewrite parse_entries_pure in Hp. cbn [fst] in Hp.
  eexists. split; [apply loop_body_step|].
  unfold step_line. cbn [data_dict set_ser].
  rewrite (line_result_parsed _ _ s td Hd Hs Hp). split; reflexivity.
Qed.

End RowClaims.

(** C3 (as amended): the row appended for a line that decodes, is not
    blank and parses is as wide as the number of distinct recognized
    metrics the line supplies, which is at most the number of
    recognized metrics; in every run of the program every data row has
    at most three cells. *)
Theorem C3_row_width_is_supplied_metrics
        (V : Type) (FV : PyFloat V) (st : state V) (s : text) (td : dict V) :
  utf8_decode (map to_N (fst (readline_split (ser st)))) = Some s ->
  strip s <> [] ->
  fst (parse_entries (split comma (strip s)) [] st) = Ok td ->
  NoDup (keys (data_dict st)) ->
  exists row st',
    loop_body st = (Ok tt, st')
    /\ ws st' = ws st ++ [row]
    /\ length row =
       length (first_occ (map fst (pairs_of (keys (data_dict st))
                                            (split comma (strip s)))))
    /\ length row <= length (keys (data_dict st))
    /\ forall evs r,
         In r (data_rows (run evs (initial_state (V:=V)))) -> length r <= 3.
Proof.
  intros Hd Hs Hp Hn.
  destruct (loop_body_parsed st s td Hd Hs Hp) as (st' & Hl & Hw & _).
  rewrite parse_entries_pure in Hp. cbn [fst] in Hp.
  exists (map CNum (values td)), st'. repeat split; auto.
  - rewrite <- (parse_pure_key_order _ _ _ Hp). unfold keys, values.
    now rewrite !length_map.
  - rewrite length_map. now apply (parse_pure_width _ _ _ Hn Hp).
  - intros evs r Hr.
    unfold data_rows in Hr. rewrite ws_run_initial in Hr. cbn [tl] in Hr.
    apply (rows_of_width _ _ _ NoDup_keys_init Hr).
Qed.

Lemma C3_witness :
  let st :=
    started_with ("target_speed:5, current_speed:1,target_speed:6" ++ LF) in
  NoDup (keys (data_dict st))
  /\ exists row st',
       loop_body st = (Ok tt, st')
       /\ ws st' = ws st ++ [row]
       /\ length row = 2.
Proof.
  split; [apply NoDup_keys_init|].
  destruct (C3_row_width_is_supplied_metrics pyfloat pyfloat_ops
              (started_with
                 ("target_speed:5, current_speed:1,target_speed:6" ++ LF))
              (txt ("target_speed:5, current_speed:1,target_speed:6" ++ LF))
              [(txt "target_speed", num 6); (txt "current_speed", num 1)])
    as (row & st' & H1 & H2 & H3 & _).
  - vm_compute; reflexivity.
  - vm_compute; discriminate.
  - vm_compute; reflexivity.
  - apply NoDup_keys_init.
  - exists row, st'. split; [exact H1|]. split; [exact H2|].
    rewrite H3. reflexivity.
Defined.

(** C3 as stated fails: the line [target_speed:5] gets a row of one
    cell, not of three. *)
Lemma C3_counterexample :
  data_rows (snd (update_plot 0 (started_with ("target_speed:5" ++ LF))))
  = [[CNum (num 5)]]
  /\ length [CNum (num 5)] <> length (keys (data_dict_init (V:=pyfloat))).
Proof. split; [vm_compute; reflexivity | vm_compute; discriminate]. Qed.

(** C4 (as amended): the row appended for a line that decodes, is not
    blank and parses lists the values in the order in which the
    recognized metrics first occur on the line, each metric with its
    last value on the line. *)
Theorem C4_row_in_encounter_order
        (V : Type) (FV : PyFloat V) (st : state V) (s : text) (td : dict V) :
  utf8_decode (map to_N (fst (readline_split (ser st)))) = Some s ->
  strip s <> [] ->
  fst (parse_entries (split comma (strip s)) [] st) = Ok td ->
  exists st',
    loop_body st = (Ok tt, st')
    /\ ws st' =
       ws st ++ [encounter_row (keys (data_dict st)) (split comma (strip s))].
Proof.
  intros Hd Hs Hp.
  destruct (loop_body_parsed st s td Hd Hs Hp) as (st' & Hl & Hw & _).
  rewrite parse_entries_pure in Hp. cbn [fst] in Hp.
  exists st'. split; [exact Hl|].
  now rewrite Hw, (parse_pure_row _ _ _ Hp).
Qed.

Lemma C4_witness :
  let st := started_with ("target_speed:5,current_speed:1" ++ LF) in
  exists st',
    loop_body st = (Ok tt, st')
    /\ ws st' = ws st ++ [[CNum (num 5); CNum (num 1)]].
Proof.
  destruct (C4_row_in_encounter_order pyfloat pyfloat_ops
              (started_with ("target_speed:5,current_speed:1" ++ LF))
              (txt ("target_speed:5,current_speed:1" ++ LF))
              [(txt "target_speed", num 5); (txt "current_speed", num 1)])
    as (st' & H1 & H2).
  - vm_compute; reflexivity.
  - vm_compute; discriminate.
  - vm_compute; reflexivity.
  - exists st'. split; [exact H1|]. rewrite H2. vm_compute. reflexivity.
Defined.

(** C4 as stated fails: the line [target_speed:5,current_speed:1]
    gets the row [5, 1], while the order of the recognized metrics
    puts [current_speed] first. *)
Lemma C4_counterexample :
  data_rows
    (snd (update_plot 0
            (started_with ("target_speed:5,current_speed:1" ++ LF))))
  = [[CNum (num 5); CNum (num 1)]]
  /\ row_in_fixed_order
       (keys (data_dict_init (V:=pyfloat)))
       [(txt "target_speed", num 5); (txt "current_speed", num 1)]
     = [CNum (num 1); CNum (num 5)]
  /\ [CNum (num 5); CNum (num 1)] <> [CNum (num 1); CNum (num 5)].
Proof.
  split; [vm_compute; reflexivity|].
  split; [vm_compute; reflexivity | discriminate].
Qed.

(** C1 (as amended): when the value side of a fragment is not a
    float, the parsing loop stops there with [ValueError] and yields
    no candidate set, whatever pairs it had gathered and whatever
    fragments follow; the whole line is discarded.  In particular the
    line [current_speed:abc,target_speed:5] yields no pair: the tick
    leaves every buffer empty and the worksheet with its header only,
    and prints one parse error. *)
Theorem C1_bad_fragment_discards_line
        (V : Type) (FV : PyFloat V)
        (entries : list text) (td : dict V) (st : state V) :
  existsb value_fails entries = true ->
  (exists arg, parse_entries entries td st = (Raise (ValueError arg), st))
  /\ (let st0 := started_with ("current_speed:abc,target_speed:5" ++ LF) in
      parse_entries (split comma (txt "current_speed:abc,target_speed:5"))
                    [] st0
      = (Raise (ValueError (txt "abc")), st0)
      /\ data_dict (snd (update_plot 0 st0)) = data_dict_init
      /\ ws (snd (update_plot 0 st0)) = [header]
      /\ stdout (snd (update_plot 0 st0))
         = [ParseErrorMsg (ValueError (txt "abc"))]).
Proof.
  intros Hf. split.
  - rewrite parse_entries_pure.
    destruct (parse_pure_value_fails (keys (data_dict st)) entries td Hf)
      as [arg Ha].
    exists arg. now rewrite Ha.
  - vm_compute. repeat split.
Qed.

Lemma C1_witness :
  existsb (value_fails (V:=pyfloat))
          (split comma (txt "target_speed:5,current_speed:abc")) = true
  /\ exists arg,
       parse_entries (split comma (txt "target_speed:5,current_speed:abc"))
                     [] (initial_state (V:=pyfloat))
       = (Raise (ValueError arg), initial_state).
Proof.
  split; [vm_compute; reflexivity|].
  apply (C1_bad_fragment_discards_line pyfloat pyfloat_ops
           (split comma (txt "target_speed:5,current_speed:abc")) []
           initial_state).
  vm_compute; reflexivity.
Defined.

(** C1 as stated fails: on [current_speed:abc,target_speed:5] the
    parsing loop does not yield the pair [(target_speed, 5.0)] (the
    pair a parser that skips bad fragments would give), and the tick
    stores nothing for [target_speed]. *)
Lemma C1_counterexample :
  let line := txt "current_speed:abc,target_speed:5" in
  let st0 := started_with ("current_speed:abc,target_speed:5" ++ LF) in
  pairs_of (keys (data_dict st0)) (split comma line)
  = [(txt "target_speed", num 5)]
  /\ fst (parse_entries (split comma line) [] st0)
     <> Ok [(txt "target_speed", num 5)]
  /\ dict_get (txt "target_speed") (data_dict (snd (update_plot 0 st0)))
     = Some []
  /\ data_rows (snd (update_plot 0 st0)) = [].
Proof.
  vm_compute. repeat split. discriminate.
Qed.

(** C6: the range [update_plot] gives to the y axis is not the least
    and greatest stored value with the margin.  After the lines
    [current_speed:1,current_duty:2,target_speed:3] and
    [current_speed:5,current_duty:-100] the buffers hold
    [1, 5], [2, -100] and [3]; the least value is -100 and the
    greatest 5, yet the axis is set to (-9, 13): the inner [min] and
    [max] pick a whole buffer by list comparison. *)
Theorem C6_ylim_is_not_global_range :
  let st :=
    snd (update_plot 0
           (started_with ("current_speed:1,current_duty:2,target_speed:3" ++ LF
                          ++ "current_speed:5,current_duty:-100" ++ LF))) in
  values (data_dict st) = [[num 1; num 5]; [num 2; num (-100)]; [num 3]]
  /\ ylim st = Some (num (-9), num 13)
  /\ global_min (data_dict st) = Some (num (-100))
  /\ global_max (data_dict st) = Some (num 5)
  /\ fsub (num (-100)) (of_int 10) = num (-110)
  /\ fadd (num 5) (of_int 10) = num 15.
Proof. vm_compute. repeat split. Qed.

(** * Further properties of the program *)

Section MoreRunFacts.

Context {V : Type} {FV : PyFloat V}.
Implicit Types (st : state V) (d : dict (list V)) (td : dict V).

Lemma keys_data_dict_fold_step raws st :
  keys (data_dict (fold_left (fun s raw => step_line raw s) raws st)) =
  keys (data_dict st).
Proof.
  change (data_dict ?s) with (fst (store_of s)).
  rewrite store_fold_step. apply keys_fold_step_store.
Qed.

Lemma keys_data_dict_step_line raw st :
  keys (data_dict (step_line raw st)) = keys (data_dict st).
Proof. apply (keys_data_dict_fold_step [raw] st). Qed.

Lemma keys_data_dict_run evs st :
  keys (data_dict (run evs st)) = keys (data_dict st).
Proof.
  change (data_dict ?s) with (fst (store_of s)).
  rewrite run_store. apply keys_fold_step_store.
Qed.

Lemma parse_pure_raise ks entries td e :
  parse_pure ks entries td = Raise e -> exists arg, e = ValueError arg.
Proof.
  revert td. induction entries as [|entry rest IH]; intros td; simpl;
    [discriminate|].
  destruct (contains colon entry); [|apply IH].
  destruct (split_1 colon entry) as [|k [|v [|x l]]];
    try (intros E; inversion E; eauto; fail).
  destruct (float (strip v)); [|intros E; inversion E; eauto].
  destruct (recognized ks (strip k)); apply IH.
Qed.

Lemma line_result_raise ks raw e :
  line_result ks raw = Raise e ->
  e = UnicodeDecodeError raw \/ exists arg, e = ValueError arg.
Proof.
  unfold line_result.
  destruct (utf8_decode (map to_N raw)) as [s|];
    [|intros E; inversion E; auto].
  destruct (strip s) as [|c line]; [discriminate|].
  destruct (parse_pure ks (split comma (c :: line)) []) as [td|e'] eqn:Ep;
    [discriminate|].
  intros E; inversion E; subst. right. apply (parse_pure_raise _ _ _ _ Ep).
Qed.

Lemma stdout_step_line raw st :
  stdout (step_line raw st) =
  stdout st ++ error_of (keys (data_dict st)) raw.
Proof.
  unfold step_line, error_of.
  destruct (line_result (keys (data_dict st)) raw) as [[td|]|e] eqn:E;
    cbn [stdout set_ws set_data_dict set_stdout]; rewrite ?app_nil_r; auto.
  destruct (line_result_raise _ _ _ E) as [->|[arg ->]]; reflexivity.
Qed.

Lemma stdout_fold_step raws st :
  stdout (fold_left (fun s raw => step_line raw s) raws st) =
  stdout st ++ flat_map (error_of (keys (data_dict st))) raws.
Proof.
  revert st. induction raws as [|raw raws IH]; intros st; simpl.
  - now rewrite app_nil_r.
  - rewrite IH, stdout_step_line, <- app_assoc.
    now rewrite keys_data_dict_step_line.
Qed.

(** A running tick is the fold of [step_line] followed by rendering,
    which keeps everything but the chart. *)
Lemma tick_same_store frame st :
  paused st = false ->
  same_store
    (set_ser [] (fold_left (fun s raw => step_line raw s)
                           (read_lines (ser st)) st))
    (handle (Tick frame) st).
Proof.
  intros P. simpl. rewrite (update_plot_running _ _ P).
  apply keeps_render_lines.
Qed.

Lemma run_stdout evs st :
  stdout (run evs st) =
  stdout st ++ flat_map (error_of (keys (data_dict st)))
                        (lines_read evs (paused st) (ser st)).
Proof.
  revert st. induction evs as [|ev evs IH]; intros st.
  - simpl. now rewrite app_nil_r.
  - change (run (ev :: evs) st) with (run evs (handle ev st)).
    rewrite IH. destruct ev as [frame| | |data]; cbn [lines_read];
      try reflexivity.
    destruct (paused st) eqn:P.
    + simpl handle. rewrite (update_plot_paused _ _ P). simpl. now rewrite P.
    + destruct (tick_same_store frame st P) as (Hp & Hs & Hd & _ & Ho).
      rewrite Hp, Hs, Hd, Ho. cbn [paused ser data_dict stdout set_ser].
      rewrite paused_fold_step, P, stdout_fold_step.
      rewrite keys_data_dict_fold_step, flat_map_app.
      now rewrite app_assoc.
Qed.

Lemma error_of_parse ks raw :
  forallb is_parse_error (error_of (V:=V) ks raw) = true.
Proof.
  unfold error_of.
  destruct (line_result ks raw) as [r|e] eqn:E; [reflexivity|].
  destruct (line_result_raise _ _ _ E) as [->|[arg ->]]; reflexivity.
Qed.

Lemma errors_are_parse_errors ks raws :
  forallb is_parse_error (flat_map (error_of (V:=V) ks) raws) = true.
Proof.
  induction raws as [|raw raws IH]; [reflexivity|].
  cbn [flat_map]. now rewrite forallb_app, IH, error_of_parse.
Qed.

Lemma line_accounts ks raw :
  1 = length (match line_result (V:=V) ks raw with
              | Ok (Some td) => [map CNum (values td)]
              | _ => []
              end)
      + length (error_of (V:=V) ks raw)
      + (if is_blank (V:=V) ks raw then 1 else 0).
Proof.
  unfold error_of, is_blank.
  destruct (line_result ks raw) as [[td|]|e]; reflexivity.
Qed.

End MoreRunFacts.

(** X1: no run of the program adds or removes a metric: from any
    state the keys of [data_dict] stay as they are, in the same order,
    and from start-up they are the three recognized names. *)
Theorem X1_metric_set_is_fixed
        (V : Type) (FV : PyFloat V) (evs : list event) (st : state V) :
  keys (data_dict (run evs st)) = keys (data_dict st)
  /\ keys (data_dict (run evs (initial_state (V:=V)))) =
     [txt "current_speed"; txt "current_duty"; txt "target_speed"].
Proof.
  split; [apply keys_data_dict_run|]. now rewrite keys_data_dict_run.
Qed.

(** X2: everything a run prints is a parse-error report, one for each
    line read that fails to decode or holds a value that is not a
    float, in the order of the lines; the second handler (line 150) is
    never reached, since [data_dict[key]] cannot raise [KeyError]. *)
Theorem X2_only_parse_errors_are_printed
        (V : Type) (FV : PyFloat V) (evs : list event) (st : state V) :
  stdout (run evs st) =
  stdout st ++ flat_map (error_of (keys (data_dict st)))
                        (lines_read evs (paused st) (ser st))
  /\ forallb is_parse_error (stdout (run evs (initial_state (V:=V)))) = true.
Proof.
  split; [apply run_stdout|].
  rewrite run_stdout. apply errors_are_parse_errors.
Qed.

(** X3: every line a run reads is accounted for exactly once: it adds
    a data row, or a parse-error report, or it is blank and leaves no
    trace. *)
Theorem X3_every_line_is_accounted_for
        (V : Type) (FV : PyFloat V) (evs : list event) :
  length (lines_read evs false []) =
  length (data_rows (run evs (initial_state (V:=V))))
  + length (stdout (run evs (initial_state (V:=V))))
  + length (filter (is_blank (V:=V) (keys (data_dict_init (V:=V))))
                   (lines_read evs false [])).
Proof.
  unfold data_rows. rewrite ws_run_initial, run_stdout. cbn [tl].
  change (paused initial_state) with false.
  change (ser (initial_state (V:=V))) with (@nil byte).
  change (stdout (initial_state (V:=V))) with (@nil message).
  change (keys (data_dict (initial_state (V:=V))))
    with (keys (data_dict_init (V:=V))).
  cbn [app]. unfold rows_of.
  induction (lines_read evs false []) as [|raw raws IH]; [reflexivity|].
  cbn [flat_map filter length]. rewrite !length_app.
  pose proof (line_accounts (keys (data_dict_init (V:=V))) raw) as H.
  revert H.
  destruct (is_blank (keys (data_dict_init (V:=V))) raw); intros H;
    cbn [length]; lia.
Qed.

Section MoreLineFacts.

Context {V : Type} {FV : PyFloat V}.
Implicit Types (st : state V) (d : dict (list V)) (td : dict V).

Lemma read_lines_nonempty (buf : list byte) : buf <> [] -> read_lines buf <> [].
Proof. intros H. rewrite (read_lines_unfold _ H). discriminate. Qed.

Lemma at_line_end_cons b (r : list byte) :
  r <> [] -> at_line_end (b :: r) = at_line_end r.
Proof.
  intros H. unfold at_line_end. simpl rev.
  destruct (rev r) as [|c l] eqn:E.
  - apply (f_equal (@rev byte)) in E. rewrite rev_involutive in E.
    simpl in E. congruence.
  - reflexivity.
Qed.

Lemma read_lines_cons x (r : list byte) :
  read_lines (x :: r) =
  if N.eqb (to_N x) newline then [x] :: read_lines r
  else match read_lines r with
       | l :: ls => (x :: l) :: ls
       | [] => [[x]]
       end.
Proof. reflexivity. Qed.

(** Reading line by line does not depend on where a delivery ends, as
    long as it ends at the end of a line. *)
Lemma read_lines_app (a b : list byte) :
  at_line_end a = true -> read_lines (a ++ b) = read_lines a ++ read_lines b.
Proof.
  induction a as [|x a IH]; intros H; [reflexivity|].
  destruct a as [|y a'].
  - unfold at_line_end in H. simpl in H. simpl. now rewrite H.
  - rewrite at_line_end_cons in H by discriminate. specialize (IH H).
    change ((x :: y :: a') ++ b) with (x :: ((y :: a') ++ b)).
    rewrite (read_lines_cons x ((y :: a') ++ b)).
    rewrite (read_lines_cons x (y :: a')), IH.
    destruct (N.eqb (to_N x) newline); [reflexivity|].
    destruct (read_lines (y :: a')) as [|l ls] eqn:E; [|reflexivity].
    exfalso. apply (read_lines_nonempty (y :: a')); [discriminate|exact E].
Qed.

(** While paused, ticks read nothing and arrivals pile up. *)
Lemma lines_read_paused evs rest buf :
  Forall (fun ev => ev <> Resume) evs ->
  lines_read (evs ++ rest) true buf =
  lines_read rest true (buf ++ received evs).
Proof.
  revert buf. induction evs as [|ev evs IH]; intros buf F.
  - simpl. now rewrite app_nil_r.
  - inversion F as [|? ? Hev Hevs]; subst.
    destruct ev as [frame| | |data]; cbn [app lines_read received];
      try (now apply IH); [congruence|].
    rewrite IH by assumption. now rewrite app_assoc.
Qed.

End MoreLineFacts.

(** X4: an iteration on a line that decodes, is not blank and has no
    value that is not a float gives every metric at most one new
    value: the buffer of a metric named on the line gets the last
    value the line gives it (with the oldest item dropped when the
    buffer is full), and the buffer of a metric the line does not
    name is unchanged. *)
Theorem X4_line_gives_each_metric_one_value
        (V : Type) (FV : PyFloat V) (st : state V) (s : text) (m : text)
        (buf : list V) :
  utf8_decode (map to_N (fst (readline_split (ser st)))) = Some s ->
  strip s <> [] ->
  existsb value_fails (split comma (strip s)) = false ->
  dict_get m (data_dict st) = Some buf ->
  exists st',
    loop_body st = (Ok tt, st')
    /\ dict_get m (data_dict st') =
       Some (match last_value m (pairs_of (keys (data_dict st))
                                          (split comma (strip s))) with
             | Some v =>
                 if Nat.ltb MAX_POINTS (length (buf ++ [v]))
                 then tl (buf ++ [v]) else buf ++ [v]
             | None => buf
             end).
Proof.
  intros Hd Hs Hf Hm.
  pose proof (parse_pure_no_failure (keys (data_dict st)) _ [] Hf) as Hp.
  assert (Hp' : fst (parse_entries (split comma (strip s)) [] st) = Ok
                  (fold_left set_pair
                     (pairs_of (keys (data_dict st)) (split comma (strip s)))
                     [])).
  { now rewrite parse_entries_pure. }
  destruct (loop_body_parsed st s _ Hd Hs Hp') as (st' & Hl & _ & Hdd).
  exists st'. split; [exact Hl|]. rewrite Hdd.
  rewrite (record_all_get m _ _ buf
             (parse_pure_NoDup _ _ _ _ Hp (NoDup_nil _)) Hm).
  rewrite dict_get_fold_set_pair. cbn [dict_get].
  destruct (last_value m _); reflexivity.
Qed.

Lemma X4_witness :
  let st :=
    started_with ("target_speed:5, target_speed:7,current_duty:1" ++ LF) in
  exists st',
    loop_body st = (Ok tt, st')
    /\ dict_get (txt "target_speed") (data_dict st') = Some [num 7].
Proof.
  destruct (X4_line_gives_each_metric_one_value pyfloat pyfloat_ops
              (started_with
                 ("target_speed:5, target_speed:7,current_duty:1" ++ LF))
              (txt ("target_speed:5, target_speed:7,current_duty:1" ++ LF))
              (txt "target_speed") [])
    as (st' & H1 & H2).
  - vm_compute; reflexivity.
  - vm_compute; discriminate.
  - vm_compute; reflexivity.
  - vm_compute; reflexivity.
  - exists st'. split; [exact H1|]. rewrite H2. vm_compute. reflexivity.
Defined.

Lemma step_line_blank (V : Type) (FV : PyFloat V) raw (st : state V) :
  is_blank (keys (data_dict st)) raw = true -> step_line raw st = st.
Proof.
  unfold is_blank, step_line.
  destruct (line_result (keys (data_dict st)) raw) as [[td|]|e];
    try discriminate. reflexivity.
Qed.

Lemma fold_step_line_no_blank (V : Type) (FV : PyFloat V) ks raws
      (st : state V) :
  keys (data_dict st) = ks ->
  fold_left (fun s raw => step_line raw s) raws st =
  fold_left (fun s raw => step_line raw s)
            (filter (fun raw => negb (is_blank (V:=V) ks raw)) raws) st.
Proof.
  revert st. induction raws as [|raw raws IH]; intros st Hk; [reflexivity|].
  cbn [fold_left filter]. destruct (is_blank ks raw) eqn:E; cbn [negb].
  - subst ks. rewrite (step_line_blank V FV raw st E). now apply IH.
  - cbn [fold_left]. apply IH. now rewrite keys_data_dict_step_line.
Qed.

(** X5: blank lines leave no trace.  An iteration on a line that
    decodes to nothing but white space (an empty read included) only
    takes the bytes of the line off the port, and the loop as a whole
    ends in the state it would reach on the same lines with the blank
    ones taken out. *)
Theorem X5_blank_lines_leave_no_trace
        (V : Type) (FV : PyFloat V) (st : state V) :
  (forall s,
     utf8_decode (map to_N (fst (readline_split (ser st)))) = Some s ->
     strip s = [] ->
     loop_body st = (Ok tt, set_ser (snd (readline_split (ser st))) st))
  /\ while_in_waiting (in_waiting st) st =
     (Ok tt,
      set_ser []
        (fold_left (fun s raw => step_line raw s)
           (filter (fun raw => negb (is_blank (V:=V) (keys (data_dict st)) raw))
                   (read_lines (ser st)))
           st)).
Proof.
  split.
  - intros s Hd Hs. rewrite loop_body_step. unfold step_line, line_result.
    now rewrite Hd, Hs.
  - rewrite while_in_waiting_spec by (unfold in_waiting; lia).
    now rewrite <- (fold_step_line_no_blank V FV (keys (data_dict st))).
Qed.

Lemma X5_witness :
  let st := started_with ("  " ++ LF ++ "target_speed:5" ++ LF) in
  loop_body st = (Ok tt, set_ser (bytes ("target_speed:5" ++ LF)) st).
Proof.
  apply (proj1 (X5_blank_lines_leave_no_trace pyfloat pyfloat_ops
                  (started_with ("  " ++ LF ++ "target_speed:5" ++ LF)))
               (txt ("  " ++ LF)));
    vm_compute; reflexivity.
Defined.

(** X6: pausing loses nothing.  Whatever arrives between a [pause] and
    the next [resume] stays on the port through every tick, and the
    first tick after the [resume] processes it, in order, exactly as
    if it had all arrived just before that tick. *)
Theorem X6_pause_loses_nothing
        (V : Type) (FV : PyFloat V) (evs : list event) (frame : nat)
        (st : state V) :
  paused st = false ->
  Forall (fun ev => ev <> Resume) evs ->
  data_dict (run (Pause :: evs ++ [Resume; Tick frame]) st) =
  data_dict (run [Receive (received evs); Tick frame] st)
  /\ ws (run (Pause :: evs ++ [Resume; Tick frame]) st) =
     ws (run [Receive (received evs); Tick frame] st)
  /\ stdout (run (Pause :: evs ++ [Resume; Tick frame]) st) =
     stdout (run [Receive (received evs); Tick frame] st).
Proof.
  intros P F.
  assert (E : lines_read (Pause :: evs ++ [Resume; Tick frame])
                         (paused st) (ser st) =
              lines_read [Receive (received evs); Tick frame]
                         (paused st) (ser st)).
  { rewrite P. cbn [lines_read]. rewrite lines_read_paused by assumption.
    reflexivity. }
  pose proof (run_store (Pause :: evs ++ [Resume; Tick frame]) st) as H1.
  pose proof (run_store [Receive (received evs); Tick frame] st) as H2.
  rewrite E, <- H2 in H1. unfold store_of in H1.
  injection H1 as Hd Hw.
  split; [exact Hd|]. split; [exact Hw|]. now rewrite !run_stdout, E.
Qed.

Lemma X6_witness :
  let st := initial_state (V:=pyfloat) in
  let evs := [Receive (bytes ("target_speed:5" ++ LF)); Tick 0;
              Receive (bytes ("target_speed:6" ++ LF)); Tick 1] in
  dict_get (txt "target_speed")
           (data_dict (run (Pause :: evs ++ [Resume; Tick 2]) st))
  = Some [num 5; num 6].
Proof.
  destruct (X6_pause_loses_nothing pyfloat pyfloat_ops
              [Receive (bytes ("target_speed:5" ++ LF)); Tick 0;
               Receive (bytes ("target_speed:6" ++ LF)); Tick 1]
              2 initial_state) as (H & _).
  - reflexivity.
  - repeat constructor; discriminate.
  - cbv zeta. rewrite H. vm_compute. reflexivity.
Defined.

(** X7: the result does not depend on how the ticks cut the stream,
    as long as every tick finds whole lines: when the bytes waiting at
    the first tick end with a newline, two deliveries read by two
    ticks leave the same buffers, worksheet and reports as the two
    deliveries read together by one tick. *)
Theorem X7_ticks_may_cut_at_line_ends
        (V : Type) (FV : PyFloat V) (a b : list byte) (f g : nat)
        (st : state V) :
  paused st = false ->
  at_line_end (ser st ++ a) = true ->
  data_dict (run [Receive a; Tick f; Receive b; Tick g] st) =
  data_dict (run [Receive (a ++ b); Tick g] st)
  /\ ws (run [Receive a; Tick f; Receive b; Tick g] st) =
     ws (run [Receive (a ++ b); Tick g] st)
  /\ stdout (run [Receive a; Tick f; Receive b; Tick g] st) =
     stdout (run [Receive (a ++ b); Tick g] st).
Proof.
  intros P H.
  assert (E : lines_read [Receive a; Tick f; Receive b; Tick g]
                         (paused st) (ser st) =
              lines_read [Receive (a ++ b); Tick g] (paused st) (ser st)).
  { rewrite P. cbn [lines_read app]. rewrite !app_nil_r.
    rewrite app_assoc. now rewrite (read_lines_app _ b H). }
  pose proof (run_store [Receive a; Tick f; Receive b; Tick g] st) as H1.
  pose proof (run_store [Receive (a ++ b); Tick g] st) as H2.
  rewrite E, <- H2 in H1. unfold store_of in H1.
  injection H1 as Hd Hw.
  split; [exact Hd|]. split; [exact Hw|]. now rewrite !run_stdout, E.
Qed.

Lemma X7_witness :
  let a := bytes ("target_speed:5" ++ LF) in
  let b := bytes ("target_speed:6" ++ LF) in
  data_dict (run [Receive a; Tick 0; Receive b; Tick 1]
                 (initial_state (V:=pyfloat))) =
  data_dict (run [Receive (a ++ b); Tick 1] initial_state).
Proof.
  apply (X7_ticks_may_cut_at_line_ends pyfloat pyfloat_ops
           (bytes ("target_speed:5" ++ LF)) (bytes ("target_speed:6" ++ LF))
           0 1 initial_state); reflexivity.
Defined.

Section MoreRenderFacts.

Context {V : Type} {FV : PyFloat V}.
Implicit Types (st : state V) (d : dict (list V)).

Lemma data_dict_render_one key st :
  data_dict (render_one key st) = data_dict st.
Proof.
  unfold render_one. destruct (dict_get key (data_dict st)) as [[|v y]|]; auto.
  destruct (y_min_of (data_dict st)), (y_max_of (data_dict st)); reflexivity.
Qed.

Lemma data_dict_fold_render ks st :
  data_dict (fold_left (fun s k => render_one k s) ks st) = data_dict st.
Proof.
  revert st. induction ks as [|k ks IH]; intros st; simpl; auto.
  now rewrite IH, data_dict_render_one.
Qed.

(** One pass of the rendering loop: it goes on as [render_one] when
    the buffer is empty or [ax.set_ylim] accepts the limits, and ends
    the loop with [ValueError] otherwise. *)
Lemma render_lines_step key rest st y lo hi :
  dict_get key (data_dict st) = Some y ->
  y_min_of (data_dict st) = Some lo ->
  y_max_of (data_dict st) = Some hi ->
  (y = [] \/ isfinite lo && isfinite hi = true ->
   render_lines (key :: rest) st = render_lines rest (render_one key st))
  /\ (y <> [] -> isfinite lo && isfinite hi = false ->
      exists s,
        render_lines (key :: rest) st =
        (Raise (ValueError (txt "Axis limits cannot be NaN or Inf")), s)).
Proof.
  intros E Hlo Hhi.
  assert (Hstep :
    render_lines (key :: rest) st =
    match y with
    | [] => render_lines rest (render_one key st)
    | _ =>
        if isfinite lo && isfinite hi
        then render_lines rest (render_one key st)
        else (Raise (ValueError (txt "Axis limits cannot be NaN or Inf")),
              set_xlim (Some (0, MAX_POINTS))
                (set_lines
                   (dict_set key (seq 0 (length y), y) (lines st)) st))
    end).
  { cbn [render_lines]. rewrite bind_eq, (getitem_ok _ _ _ E).
    rewrite bind_eq. unfold modify at 1. rewrite bind_eq.
    unfold render_one. rewrite E. destruct y as [|y0 y]; [reflexivity|].
    rewrite bind_eq. unfold modify at 1. rewrite bind_eq. cbn [get].
    cbn [data_dict set_xlim set_lines].
    rewrite bind_eq, Hlo. cbn [or_raise ret].
    rewrite bind_eq, Hhi. cbn [or_raise ret]. unfold ax_set_ylim.
    destruct (isfinite lo && isfinite hi); reflexivity. }
  rewrite Hstep. split.
  - intros [->|H]; [reflexivity|]. rewrite H. now destruct y.
  - intros Hy H. rewrite H. destruct y; [congruence|eauto].
Qed.

(** The rendering loop is the fold of [render_one] over the keys of
    the chart, when each has its buffer and [ax.set_ylim] accepts the
    limits. *)
Lemma render_lines_fold ks st :
  (forall k, In k ks -> dict_mem k (data_dict st) = true) ->
  (forall k v buf lo hi,
     In k ks -> dict_get k (data_dict st) = Some (v :: buf) ->
     y_min_of (data_dict st) = Some lo ->
     y_max_of (data_dict st) = Some hi ->
     isfinite lo && isfinite hi = true) ->
  render_lines ks st = (Ok tt, fold_left (fun s k => render_one k s) ks st).
Proof.
  revert st. induction ks as [|key rest IH]; intros st Hk Hf; [reflexivity|].
  assert (Hm : dict_mem key (data_dict st) = true) by (apply Hk; simpl; auto).
  unfold dict_mem in Hm.
  destruct (dict_get key (data_dict st)) as [y|] eqn:E; [|discriminate].
  destruct (y_range_defined (data_dict st)) as (lo & hi & Hlo & Hhi).
  { intros N. rewrite N in E. discriminate. }
  destruct (render_lines_step key rest st y lo hi E Hlo Hhi) as [Hgo _].
  rewrite Hgo.
  - cbn [fold_left]. apply IH.
    + intros k Hin. rewrite data_dict_render_one. apply Hk. simpl; auto.
    + intros k v buf lo' hi' Hin. rewrite data_dict_render_one.
      apply Hf. simpl; auto.
  - destruct y as [|v buf]; [now left|right].
    apply (Hf key v buf lo hi); simpl; auto.
Qed.

(** Conversely, when the rendering loop returns normally it has done
    what the fold does, and [ax.set_ylim] accepted the limits of
    every curve that has a value. *)
Lemma render_lines_ok ks st st' :
  (forall k, In k ks -> dict_mem k (data_dict st) = true) ->
  render_lines ks st = (Ok tt, st') ->
  st' = fold_left (fun s k => render_one k s) ks st
  /\ forall k v buf lo hi,
       In k ks -> dict_get k (data_dict st) = Some (v :: buf) ->
       y_min_of (data_dict st) = Some lo ->
       y_max_of (data_dict st) = Some hi ->
       isfinite lo && isfinite hi = true.
Proof.
  revert st. induction ks as [|key rest IH]; intros st Hk H.
  - injection H as <-. split; [reflexivity|]. intros k v buf lo hi [].
  - assert (Hm : dict_mem key (data_dict st) = true)
      by (apply Hk; simpl; auto).
    unfold dict_mem in Hm.
    destruct (dict_get key (data_dict st)) as [y|] eqn:E; [|discriminate].
    destruct (y_range_defined (data_dict st)) as (lo & hi & Hlo & Hhi).
    { intros N. rewrite N in E. discriminate. }
    destruct (render_lines_step key rest st y lo hi E Hlo Hhi)
      as [Hgo Hstop].
    assert (Hacc : y = [] \/ isfinite lo && isfinite hi = true).
    { destruct y as [|v buf]; [now left|right].
      destruct (isfinite lo && isfinite hi) eqn:F; [reflexivity|].
      destruct (Hstop ltac:(discriminate) eq_refl) as [s Hs].
      rewrite Hs in H. discriminate. }
    rewrite (Hgo Hacc) in H.
    destruct (IH (render_one key st)) as [Hst Hfin]; [|exact H|].
    + intros k Hin. rewrite data_dict_render_one. apply Hk. simpl; auto.
    + split; [exact Hst|].
      intros k v buf lo' hi' [<-|Hin] Hb Hlo' Hhi'.
      * rewrite E in Hb. injection Hb as ->.
        destruct Hacc as [Hn|Hacc]; [discriminate|]. congruence.
      * apply (Hfin k v buf lo' hi' Hin); now rewrite data_dict_render_one.
Qed.

Lemma lines_render_one_other key k st :
  text_eqb k key = false ->
  dict_get k (lines (render_one key st)) = dict_get k (lines st).
Proof.
  intros N. unfold render_one.
  destruct (dict_get key (data_dict st)) as [[|v y]|]; auto;
    [|destruct (y_min_of (data_dict st)), (y_max_of (data_dict st))];
    cbn [lines set_lines set_xlim set_ylim]; now apply dict_get_set_other.
Qed.

Lemma lines_render_one_same key st buf :
  dict_get key (data_dict st) = Some buf ->
  dict_get key (lines (render_one key st)) = Some (seq 0 (length buf), buf).
Proof.
  intros E. unfold render_one. rewrite E. destruct buf as [|v y].
  - apply dict_get_set_same.
  - destruct (y_min_of (data_dict st)), (y_max_of (data_dict st));
      cbn [lines set_lines set_xlim set_ylim]; apply dict_get_set_same.
Qed.

Lemma lines_fold_render ks st k buf :
  dict_get k (data_dict st) = Some buf ->
  (In k ks \/ dict_get k (lines st) = Some (seq 0 (length buf), buf)) ->
  dict_get k (lines (fold_left (fun s k => render_one k s) ks st)) =
  Some (seq 0 (length buf), buf).
Proof.
  revert st. induction ks as [|key rest IH]; intros st Hd H.
  - destruct H as [[]|H]. exact H.
  - cbn [fold_left]. apply IH; [now rewrite data_dict_render_one|].
    destruct (text_eqb k key) eqn:E.
    + apply text_eqb_eq in E; subst key. right.
      now apply lines_render_one_same.
    + destruct H as [[H|H]|H].
      * subst key. rewrite text_eqb_refl in E. discriminate.
      * now left.
      * right. now rewrite lines_render_one_other.
Qed.

(** The axes after the fold: untouched when the buffers of all keys
    are empty, set from the buffers when one is not. *)
Lemma axes_fold_render_empty ks st :
  (forall k, In k ks -> dict_get k (data_dict st) = Some []) ->
  xlim (fold_left (fun s k => render_one k s) ks st) = xlim st
  /\ ylim (fold_left (fun s k => render_one k s) ks st) = ylim st.
Proof.
  revert st. induction ks as [|key rest IH]; intros st H; [auto|].
  cbn [fold_left]. destruct (IH (render_one key st)) as [Hx Hy].
  - intros k Hin. rewrite data_dict_render_one. apply H. simpl; auto.
  - rewrite Hx, Hy. unfold render_one. rewrite (H key) by (simpl; auto).
    auto.
Qed.

Lemma axes_fold_render_set ks st lo hi :
  y_min_of (data_dict st) = Some lo ->
  y_max_of (data_dict st) = Some hi ->
  (xlim st = Some (0, MAX_POINTS) /\ ylim st = Some (lo, hi)
   \/ exists k v buf, In k ks /\ dict_get k (data_dict st) = Some (v :: buf)) ->
  xlim (fold_left (fun s k => render_one k s) ks st) = Some (0, MAX_POINTS)
  /\ ylim (fold_left (fun s k => render_one k s) ks st) = Some (lo, hi).
Proof.
  revert st. induction ks as [|key rest IH]; intros st Hlo Hhi H.
  - destruct H as [H|(k & v & buf & [] & _)]. exact H.
  - cbn [fold_left]. apply IH; rewrite ?data_dict_render_one; auto.
    unfold render_one.
    destruct (dict_get key (data_dict st)) as [[|v0 y]|] eqn:E.
    + destruct H as [H|(k & v & buf & [Hk|Hk] & Hb)]; auto.
      * subst k. congruence.
      * right. exists k, v, buf. auto.
    + rewrite Hlo, Hhi. left. auto.
    + destruct H as [H|(k & v & buf & [Hk|Hk] & Hb)]; auto.
      * subst k. congruence.
      * right. exists k, v, buf. auto.
Qed.

(** An empty buffer is the least of all lists, so the inner [min] of
    line 160 returns it. *)
Lemma list_lt_nil_r (a : list V) : list_lt a [] = false.
Proof. destruct a; reflexivity. Qed.

Lemma list_lt_nil_l (a : list V) : a <> [] -> list_lt [] a = true.
Proof. destruct a; [congruence|reflexivity]. Qed.

Lemma fold_min_nil (r : list (list V)) :
  fold_left (fun best item => if list_lt item best then item else best) r []
  = [].
Proof.
  induction r as [|item r IH]; simpl; auto. now rewrite list_lt_nil_r.
Qed.

Lemma py_min_picks_empty (bufs : list (list V)) :
  In [] bufs -> py_min list_lt bufs = Some [].
Proof.
  destruct bufs as [|x r]; [intros []|]. unfold py_min. intros H. f_equal.
  revert x H. induction r as [|item r IH]; intros x H.
  - destruct H as [->|[]]. reflexivity.
  - cbn [fold_left]. destruct x as [|x0 x'].
    + rewrite list_lt_nil_r. apply fold_min_nil.
    + destruct H as [H|[->|H]]; [discriminate| |].
      * rewrite list_lt_nil_l by discriminate. apply fold_min_nil.
      * apply IH. right. exact H.
Qed.

End MoreRenderFacts.

Section TickFacts.

Context {V : Type} {FV : PyFloat V}.
Implicit Types (st : state V) (d : dict (list V)).

(** A running tick that returns normally, on a state whose curves all
    have a buffer: the lines are processed, then every curve is
    rendered, and [ax.set_ylim] accepted the limits if it was
    called. *)
Lemma update_plot_fold frame st st' :
  paused st = false ->
  renderable st ->
  update_plot frame st = (Ok tt, st') ->
  st' = fold_left (fun s k => render_one k s) (keys (lines st))
          (set_ser [] (fold_left (fun s raw => step_line raw s)
                                 (read_lines (ser st)) st))
  /\ forall k v buf lo hi,
       In k (keys (lines st)) ->
       dict_get k (data_dict st') = Some (v :: buf) ->
       y_min_of (data_dict st') = Some lo ->
       y_max_of (data_dict st') = Some hi ->
       isfinite lo && isfinite hi = true.
Proof.
  intros P R H. rewrite (update_plot_running _ _ P) in H.
  set (st1 := set_ser [] _) in *.
  assert (Hin : forall k, In k (keys (lines st)) ->
                          dict_mem k (data_dict st1) = true).
  { intros k Hk. apply dict_mem_In. unfold st1. cbn [data_dict set_ser].
    rewrite keys_data_dict_fold_step. apply dict_mem_In. now apply R. }
  destruct (render_lines_ok _ st1 st' Hin H) as [-> Hfin].
  split; [reflexivity|]. rewrite data_dict_fold_render. exact Hfin.
Qed.

Lemma dict_get_In_values (A : Type) k (t : dict A) v :
  dict_get k t = Some v -> In v (values t).
Proof.
  induction t as [|[k' v'] t IH]; simpl; [discriminate|].
  destruct (text_eqb k k'); auto. intros E; inversion E; auto.
Qed.

Lemma y_min_of_with_empty_buffer d :
  In [] (values d) -> y_min_of d = Some (fsub (of_int 0) (of_int 10)).
Proof.
  intros H. unfold y_min_of. now rewrite (py_min_picks_empty _ H).
Qed.

Lemma axes_after_tick frame st st' :
  paused st = false ->
  renderable st ->
  update_plot frame st = (Ok tt, st') ->
  ((forall k, In k (keys (lines st)) -> dict_get k (data_dict st') = Some []) ->
   xlim st' = xlim st /\ ylim st' = ylim st)
  /\ (forall k v buf,
        In k (keys (lines st)) ->
        dict_get k (data_dict st') = Some (v :: buf) ->
        xlim st' = Some (0, MAX_POINTS)
        /\ exists lo hi,
             y_min_of (data_dict st') = Some lo
             /\ y_max_of (data_dict st') = Some hi
             /\ ylim st' = Some (lo, hi)).
Proof.
  intros P R H. destruct (update_plot_fold frame st st' P R H) as [-> _].
  rewrite data_dict_fold_render.
  set (st1 := set_ser [] _). split.
  - intros He. destruct (axes_fold_render_empty (keys (lines st)) st1 He)
      as [Hx Hy].
    rewrite Hx, Hy. unfold st1. cbn [xlim ylim set_ser].
    clear. induction (read_lines (ser st)) as [|raw raws IH] using rev_ind;
      [auto|].
    rewrite fold_left_app. cbn [fold_left]. unfold step_line at 1 3.
    destruct (line_result _ raw) as [[td|]|e]; exact IH.
  - intros k v buf Hk Hb.
    destruct (y_range_defined (data_dict st1)) as (lo & hi & Hlo & Hhi).
    { intros N. rewrite N in Hb. discriminate. }
    destruct (axes_fold_render_set (keys (lines st)) st1 lo hi Hlo Hhi)
      as [Hx Hy]; [right; exists k, v, buf; auto|].
    split; [exact Hx|]. exists lo, hi. auto.
Qed.

Lemma curves_show_buffers frame st st' k :
  paused st = false ->
  renderable st ->
  update_plot frame st = (Ok tt, st') ->
  In k (keys (lines st)) ->
  exists buf,
    dict_get k (data_dict st') = Some buf
    /\ dict_get k (lines st') = Some (seq 0 (length buf), buf).
Proof.
  intros P R H Hk. destruct (update_plot_fold frame st st' P R H) as [-> _].
  set (st1 := set_ser [] _).
  assert (Hm : dict_mem k (data_dict st1) = true).
  { apply dict_mem_In. unfold st1. cbn [data_dict set_ser].
    rewrite keys_data_dict_fold_step. apply dict_mem_In. now apply R. }
  unfold dict_mem in Hm.
  destruct (dict_get k (data_dict st1)) as [buf|] eqn:E; [|discriminate].
  exists buf. split.
  - now rewrite data_dict_fold_render.
  - apply lines_fold_render; auto.
Qed.

End TickFacts.

(** X8: after a running tick that returns normally every curve of the
    chart holds the buffer of its metric as it is after the tick,
    against the indices [0 .. n-1]. *)
Theorem X8_curves_show_the_buffers
        (V : Type) (FV : PyFloat V) (frame : nat) (st st' : state V)
        (k : text) :
  paused st = false ->
  renderable st ->
  update_plot frame st = (Ok tt, st') ->
  In k (keys (lines st)) ->
  exists buf,
    dict_get k (data_dict st') = Some buf
    /\ dict_get k (lines st') = Some (seq 0 (length buf), buf).
Proof. apply curves_show_buffers. Qed.

Lemma X8_witness :
  let st := started_with ("target_speed:5" ++ LF ++ "target_speed:6" ++ LF) in
  update_plot 0 st = (Ok tt, snd (update_plot 0 st))
  /\ dict_get (txt "target_speed") (lines (snd (update_plot 0 st)))
     = Some ([0; 1], [num 5; num 6]).
Proof.
  cbv zeta. set (st := started_with _).
  assert (H : update_plot 0 st = (Ok tt, snd (update_plot 0 st)))
    by (vm_compute; reflexivity).
  split; [exact H|].
  destruct (X8_curves_show_the_buffers pyfloat pyfloat_ops 0 st
              (snd (update_plot 0 st)) (txt "target_speed"))
    as (buf & H2 & H3).
  - reflexivity.
  - apply renderable_initial.
  - exact H.
  - simpl; auto.
  - rewrite H3. vm_compute in H2. injection H2 as <-. reflexivity.
Defined.

(** X9: a running tick that returns normally leaves the axes alone
    while every buffer is empty; once a curve has a value it has set
    the x range to [0 .. MAX_POINTS] and the y range to the pair
    computed by lines 160-161 from the buffers as they are after the
    tick, and neither limit is NaN or infinite. *)
Theorem X9_axes_follow_the_buffers
        (V : Type) (FV : PyFloat V) (frame : nat) (st st' : state V) :
  paused st = false ->
  renderable st ->
  update_plot frame st = (Ok tt, st') ->
  ((forall k, In k (keys (lines st)) ->
              dict_get k (data_dict st') = Some []) ->
   xlim st' = xlim st /\ ylim st' = ylim st)
  /\ (forall k v buf,
        In k (keys (lines st)) ->
        dict_get k (data_dict st') = Some (v :: buf) ->
        xlim st' = Some (0, MAX_POINTS)
        /\ exists lo hi,
             y_min_of (data_dict st') = Some lo
             /\ y_max_of (data_dict st') = Some hi
             /\ isfinite lo = true /\ isfinite hi = true
             /\ ylim st' = Some (lo, hi)).
Proof.
  intros P R H. destruct (axes_after_tick frame st st' P R H) as [He Hs].
  split; [exact He|]. intros k v buf Hk Hb.
  destruct (Hs k v buf Hk Hb) as (Hx & lo & hi & Hlo & Hhi & Hy).
  split; [exact Hx|]. exists lo, hi.
  destruct (update_plot_fold frame st st' P R H) as [_ Hfin].
  pose proof (Hfin k v buf lo hi Hk Hb Hlo Hhi) as F.
  apply andb_true_iff in F as [F1 F2]. auto.
Qed.

Lemma X9_witness :
  let st := started_with ("target_speed:5" ++ LF) in
  update_plot 0 st = (Ok tt, snd (update_plot 0 st))
  /\ xlim (snd (update_plot 0 st)) = Some (0, MAX_POINTS)
  /\ exists lo hi, ylim (snd (update_plot 0 st)) = Some (lo, hi)
                   /\ isfinite lo = true /\ isfinite hi = true.
Proof.
  cbv zeta. set (st := started_with _).
  assert (H : update_plot 0 st = (Ok tt, snd (update_plot 0 st)))
    by (vm_compute; reflexivity).
  split; [exact H|].
  destruct (X9_axes_follow_the_buffers pyfloat pyfloat_ops 0 st
              (snd (update_plot 0 st))) as (_ & Hs).
  - reflexivity.
  - apply renderable_initial.
  - exact H.
  - destruct (Hs (txt "target_speed") (num 5) [])
      as (Hx & lo & hi & _ & _ & F1 & F2 & Hy).
    + simpl; auto.
    + vm_compute. reflexivity.
    + split; [exact Hx|]. exists lo, hi. auto.
Defined.

(** X10: as long as one recognized metric has no value yet, the lower
    y limit a running tick sets is the default 0 minus the margin 10,
    whatever the stored values are: the inner [min] of line 160
    compares the buffers as lists and an empty buffer is the least. *)
Theorem X10_lower_limit_with_an_empty_buffer
        (V : Type) (FV : PyFloat V) (frame : nat) (st st' : state V)
        (k k0 : text) (v : V) (buf : list V) :
  paused st = false ->
  renderable st ->
  update_plot frame st = (Ok tt, st') ->
  In k (keys (lines st)) ->
  dict_get k (data_dict st') = Some (v :: buf) ->
  dict_get k0 (data_dict st') = Some [] ->
  exists hi, ylim st' = Some (fsub (of_int 0) (of_int 10), hi).
Proof.
  intros P R H Hk Hb He.
  destruct (axes_after_tick frame st st' P R H) as [_ Hset].
  destruct (Hset k v buf Hk Hb) as (_ & lo & hi & Hlo & _ & Hy).
  rewrite (y_min_of_with_empty_buffer _ (dict_get_In_values _ _ _ _ He))
    in Hlo.
  injection Hlo as <-. exists hi. exact Hy.
Qed.

Lemma X10_witness :
  let st := started_with ("target_speed:-500" ++ LF) in
  exists st' hi,
    update_plot 0 st = (Ok tt, st')
    /\ dict_get (txt "target_speed") (data_dict st') = Some [num (-500)]
    /\ ylim st' = Some (num (-10), hi).
Proof.
  cbv zeta. set (st := started_with _).
  assert (H1 : update_plot 0 st = (Ok tt, snd (update_plot 0 st)))
    by (vm_compute; reflexivity).
  destruct (X10_lower_limit_with_an_empty_buffer pyfloat pyfloat_ops 0
              st (snd (update_plot 0 st))
              (txt "target_speed") (txt "current_speed") (num (-500)) [])
    as [hi Hy].
  - reflexivity.
  - apply renderable_initial.
  - exact H1.
  - simpl; auto.
  - vm_compute. reflexivity.
  - vm_compute. reflexivity.
  - exists (snd (update_plot 0 st)), hi. split; [exact H1|].
    split; [vm_compute; reflexivity|exact Hy].
Defined.

(** ** The chart *)

Section ChartFacts.

Context {V : Type} {FV : PyFloat V}.
Implicit Types (g : gui V) (event : mouse_event).

Lemma update_visibility_loop_spec ks g :
  (forall k, In k ks -> dict_mem k (line_visible g) = true) ->
  exists g',
    update_visibility_loop ks g = (None, g')
    /\ core g' = core g /\ line_visible g' = line_visible g
    /\ annot g' = annot g /\ draws g' = draws g
    /\ forall k,
         dict_get k (line_shown g') =
         if recognized ks k then dict_get k (line_visible g)
         else dict_get k (line_shown g).
Proof.
  revert g. induction ks as [|key rest IH]; intros g Hk.
  - exists g. simpl. repeat split.
  - assert (Hm : dict_mem key (line_visible g) = true)
      by (apply Hk; simpl; auto).
    unfold dict_mem in Hm. cbn [update_visibility_loop].
    destruct (dict_get key (line_visible g)) as [b|] eqn:E; [|discriminate].
    destruct (IH (set_line_shown (dict_set key b (line_shown g)) g))
      as (g' & Hl & Hc & Hv & Ha & Hd & Hs).
    { intros k Hin. apply Hk. simpl; auto. }
    exists g'. split; [exact Hl|]. repeat split; auto.
    intros k. rewrite Hs. cbn [line_visible line_shown set_line_shown].
    unfold recognized. cbn [existsb].
    destruct (existsb (text_eqb k) rest); [now rewrite orb_true_r|].
    rewrite orb_false_r. destruct (text_eqb k key) eqn:Ek.
    + apply text_eqb_eq in Ek; subst. now rewrite dict_get_set_same.
    + now rewrite dict_get_set_other.
Qed.

(** What the loop of [on_move] does when it ends the call. *)
Lemma on_move_lines_shown event ks g g' :
  on_move_lines event ks g = Some (None, g') ->
  exists pre key post ind i x y xi yi,
    ks = pre ++ key :: post
    /\ (forall k, In k pre ->
                  dict_get k (line_visible g) = Some false
                  \/ fst (contains_at event k) = false)
    /\ dict_get key (line_visible g) = Some true
    /\ contains_at event key = (true, i :: ind)
    /\ dict_get key (lines (core g)) = Some (x, y)
    /\ nth_error x i = Some xi /\ nth_error y i = Some yi
    /\ g' = canvas_draw
              (set_annot (mkAnnot true (xi, yi) (Some (key, xi, yi))) g).
Proof.
  induction ks as [|key rest IH]; [discriminate|]. cbn [on_move_lines].
  destruct (dict_get key (line_visible g)) as [[|]|] eqn:Ev; [| |discriminate].
  - destruct (contains_at event key) as [cont ind] eqn:Ec.
    destruct cont.
    + unfold update_annot.
      destruct (dict_get key (lines (core g))) as [[x y]|] eqn:El;
        [|discriminate].
      destruct ind as [|i ind]; [discriminate|].
      destruct (nth_error x i) as [xi|] eqn:Ex; [|discriminate].
      destruct (nth_error y i) as [yi|] eqn:Ey; [|discriminate].
      intros H. injection H as <-.
      exists [], key, rest, ind, i, x, y, xi, yi.
      repeat split; auto. intros k [].
    + intros H. destruct (IH H)
        as (pre & k0 & post & ind' & i & x & y & xi & yi & -> & Hpre & Hrest).
      exists (key :: pre), k0, post, ind', i, x, y, xi, yi.
      split; [reflexivity|]. split; [|exact Hrest].
      intros k [<-|Hin]; [right; now rewrite Ec|now apply Hpre].
  - intros H. destruct (IH H)
      as (pre & k0 & post & ind' & i & x & y & xi & yi & -> & Hpre & Hrest).
    exists (key :: pre), k0, post, ind', i, x, y, xi, yi.
    split; [reflexivity|]. split; [|exact Hrest].
    intros k [<-|Hin]; [now left|now apply Hpre].
Qed.

Lemma on_move_lines_none event ks g :
  (forall k, In k ks -> dict_mem k (line_visible g) = true) ->
  (forall k, In k ks -> dict_get k (line_visible g) = Some true ->
             fst (contains_at event k) = false) ->
  on_move_lines event ks g = None.
Proof.
  induction ks as [|key rest IH]; intros Hm Hc; [reflexivity|].
  cbn [on_move_lines].
  assert (Hk : dict_mem key (line_visible g) = true) by (apply Hm; simpl; auto).
  unfold dict_mem in Hk.
  assert (Hrest : on_move_lines event rest g = None).
  { apply IH; intros k Hin; [apply Hm|apply Hc]; simpl; auto. }
  destruct (dict_get key (line_visible g)) as [[|]|] eqn:Ev;
    [|exact Hrest|discriminate].
  specialize (Hc key (or_introl eq_refl) Ev).
  destruct (contains_at event key) as [cont ind]. simpl in Hc. subst cont.
  exact Hrest.
Qed.

End ChartFacts.

(** X11: when every curve has its check box, [update_visibility]
    returns normally and leaves each curve shown exactly when its box
    is ticked; it changes nothing else and asks for no redraw. *)
Theorem X11_update_visibility_follows_the_boxes
        (V : Type) (g : gui V) :
  (forall k, In k (keys (lines (core g))) ->
             dict_mem k (line_visible g) = true) ->
  exists g',
    update_visibility g = (None, g')
    /\ core g' = core g /\ line_visible g' = line_visible g
    /\ annot g' = annot g /\ draws g' = draws g
    /\ (forall k, In k (keys (lines (core g))) ->
                  dict_get k (line_shown g') = dict_get k (line_visible g))
    /\ (forall k, ~ In k (keys (lines (core g))) ->
                  dict_get k (line_shown g') = dict_get k (line_shown g)).
Proof.
  intros H.
  destruct (update_visibility_loop_spec (keys (lines (core g))) g H)
    as (g' & Hl & Hc & Hv & Ha & Hd & Hs).
  exists g'. split; [exact Hl|]. repeat split; auto.
  - intros k Hk. rewrite Hs.
    now rewrite (proj2 (recognized_In _ k) Hk).
  - intros k Hk. rewrite Hs.
    destruct (recognized (keys (lines (core g))) k) eqn:E; auto.
    apply recognized_In in E. contradiction.
Qed.

Lemma X11_witness :
  let g :=
    set_line_visible
      (dict_set (txt "current_duty") false
                (line_visible (initial_gui (V:=pyfloat))))
      initial_gui in
  exists g',
    update_visibility g = (None, g')
    /\ dict_get (txt "current_duty") (line_shown g') = Some false
    /\ dict_get (txt "target_speed") (line_shown g') = Some true.
Proof.
  destruct (X11_update_visibility_follows_the_boxes pyfloat
              (set_line_visible
                 (dict_set (txt "current_duty") false
                           (line_visible (initial_gui (V:=pyfloat))))
                 initial_gui))
    as (g' & H1 & _ & _ & _ & _ & H2 & _).
  - intros k Hk. simpl in Hk.
    destruct Hk as [<-|[<-|[<-|[]]]]; reflexivity.
  - exists g'. split; [exact H1|].
    split; (rewrite H2; [reflexivity|simpl; auto]).
Defined.

(** X12: when [on_move] returns with the annotation visible, the
    pointer is inside the axes and the annotation is the one of the
    first curve, in the order of [lines], whose box is ticked and
    which the pointer is over: it is anchored at the point of that
    curve with the first index reported, and the canvas is redrawn
    once.  A curve whose box is not ticked is never annotated. *)
Theorem X12_tooltip_is_for_the_first_ticked_curve_hit
        (V : Type) (event : mouse_event) (g g' : gui V) :
  on_move event g = (None, g') ->
  annot_visible (annot g') = true ->
  inaxes event = true
  /\ exists pre key post ind i x y xi yi,
       keys (lines (core g)) = pre ++ key :: post
       /\ (forall k, In k pre ->
                     dict_get k (line_visible g) = Some false
                     \/ fst (contains_at event k) = false)
       /\ dict_get key (line_visible g) = Some true
       /\ contains_at event key = (true, i :: ind)
       /\ dict_get key (lines (core g)) = Some (x, y)
       /\ nth_error x i = Some xi /\ nth_error y i = Some yi
       /\ annot g' = mkAnnot true (xi, yi) (Some (key, xi, yi))
       /\ draws g' = S (draws g)
       /\ core g' = core g
       /\ line_shown g' = line_shown g.
Proof.
  unfold on_move. intros H Hv.
  destruct (inaxes event).
  - split; [reflexivity|].
    destruct (on_move_lines event (keys (lines (core g))) g)
      as [[[e|] g1]|] eqn:E.
    + discriminate.
    + injection H as <-.
      destruct (on_move_lines_shown _ _ _ _ E)
        as (pre & key & post & ind & i & x & y & xi & yi
            & Hks & Hpre & Ht & Hc & Hl & Hx & Hy & ->).
      exists pre, key, post, ind, i, x, y, xi, yi. repeat split; auto.
    + destruct (annot_visible (annot g)) eqn:Ea; injection H as <-.
      * discriminate.
      * congruence.
  - destruct (annot_visible (annot g)) eqn:Ea; injection H as <-.
    + discriminate.
    + congruence.
Qed.

(** X13: when every curve has its check box and the pointer is outside
    the axes or over no curve whose box is ticked, [on_move] returns
    normally with the annotation hidden; it redraws the canvas only
    if the annotation was visible, and otherwise changes nothing. *)
Theorem X13_tooltip_hidden_when_nothing_is_hit
        (V : Type) (event : mouse_event) (g : gui V) :
  (forall k, In k (keys (lines (core g))) ->
             dict_mem k (line_visible g) = true) ->
  (inaxes event = false
   \/ forall k, In k (keys (lines (core g))) ->
                dict_get k (line_visible g) = Some true ->
                fst (contains_at event k) = false) ->
  on_move event g =
  (None, if annot_visible (annot g)
         then canvas_draw (annot_set_visible false g)
         else g).
Proof.
  intros Hm H. unfold on_move.
  assert (E : (if inaxes event
               then on_move_lines event (keys (lines (core g))) g
               else None) = None).
  { destruct (inaxes event); [|reflexivity].
    destruct H as [H|H]; [discriminate|].
    now apply on_move_lines_none. }
  rewrite E. destruct (annot_visible (annot g)); reflexivity.
Qed.

Lemma X12_witness :
  let c := snd (update_plot 0 (started_with
                  ("target_speed:5,current_speed:1" ++ LF
                   ++ "target_speed:6,current_speed:2" ++ LF))) in
  let g := set_core c initial_gui in
  let event :=
    mkMouse true (fun k => if text_eqb k (txt "current_duty")
                           then (false, []) else (true, [1])) in
  exists g',
    on_move event g = (None, g')
    /\ annot g' = mkAnnot true (1, num 2)
                          (Some (txt "current_speed", 1, num 2)).
Proof.
  cbv zeta.
  set (g := set_core _ initial_gui). set (event := mkMouse _ _).
  assert (E : exists g', on_move event g = (None, g')
                         /\ annot_visible (annot g') = true).
  { eexists. split; vm_compute; reflexivity. }
  destruct E as (g' & E & Hv).
  destruct (X12_tooltip_is_for_the_first_ticked_curve_hit
              pyfloat event g g' E Hv)
    as (_ & pre & key & post & ind & i & x & y & xi & yi & _ & _ & _ & _
        & _ & _ & _ & Ha & _).
  exists g'. split; [exact E|].
  pose proof E as E'. vm_compute in E'. injection E' as <-. reflexivity.
Defined.

Lemma X13_witness :
  let g :=
    set_annot (mkAnnot true (0, num 0) None) (initial_gui (V:=pyfloat)) in
  let event := mkMouse false (fun _ => (true, [0])) in
  on_move event g = (None, canvas_draw (annot_set_visible false g)).
Proof.
  apply (X13_tooltip_hidden_when_nothing_is_hit pyfloat
           (mkMouse false (fun _ => (true, [0])))
           (set_annot (mkAnnot true (0, num 0) None) initial_gui)).
  - intros k Hk. simpl in Hk.
    destruct Hk as [<-|[<-|[<-|[]]]]; reflexivity.
  - left. reflexivity.
Defined.

Section ChartTickFacts.

Context {V : Type} {FV : PyFloat V}.
Implicit Types (st : state V) (g : gui V).

Lemma keys_lines_render_one key st :
  dict_mem key (lines st) = true ->
  keys (lines (render_one key st)) = keys (lines st).
Proof.
  intros H. unfold render_one.
  destruct (dict_get key (data_dict st)) as [[|v y]|]; auto;
    [|destruct (y_min_of (data_dict st)), (y_max_of (data_dict st))];
    cbn [lines set_lines set_xlim set_ylim];
    now apply keys_dict_set_present.
Qed.

Lemma keys_lines_fold_render ks st :
  (forall k, In k ks -> dict_mem k (lines st) = true) ->
  keys (lines (fold_left (fun s k => render_one k s) ks st)) =
  keys (lines st).
Proof.
  revert st. induction ks as [|key rest IH]; intros st H; [reflexivity|].
  cbn [fold_left]. rewrite IH.
  - apply keys_lines_render_one. apply H. simpl; auto.
  - intros k Hk. apply dict_mem_In. rewrite keys_lines_render_one.
    + apply dict_mem_In, H. simpl; auto.
    + apply H. simpl; auto.
Qed.

(** After a running tick the chart has the curves it had, each holding
    the buffer of its metric against the indices. *)
Lemma curves_after_tick frame st c :
  paused st = false ->
  renderable st ->
  update_plot frame st = (Ok tt, c) ->
  keys (lines c) = keys (lines st)
  /\ keys (data_dict c) = keys (data_dict st)
  /\ forall k, In k (keys (lines st)) ->
       exists buf,
         dict_get k (data_dict c) = Some buf
         /\ dict_get k (lines c) = Some (seq 0 (length buf), buf).
Proof.
  intros P R H. destruct (update_plot_fold frame st c P R H) as [-> _].
  set (st1 := set_ser [] _).
  assert (Hl : lines st1 = lines st).
  { unfold st1. cbn [lines set_ser]. apply lines_fold_step. }
  assert (Hd : keys (data_dict st1) = keys (data_dict st)).
  { unfold st1. cbn [data_dict set_ser]. apply keys_data_dict_fold_step. }
  split; [|split].
  - rewrite keys_lines_fold_render; [now rewrite Hl|].
    intros k Hk. apply dict_mem_In. now rewrite Hl.
  - now rewrite data_dict_fold_render.
  - intros k Hk. rewrite data_dict_fold_render.
    assert (Hm : dict_mem k (data_dict st1) = true).
    { apply dict_mem_In. rewrite Hd. apply dict_mem_In. now apply R. }
    unfold dict_mem in Hm.
    destruct (dict_get k (data_dict st1)) as [buf|] eqn:E; [|discriminate].
    exists buf. split; [reflexivity|]. apply lines_fold_render; auto.
Qed.

Lemma nth_error_seq_index start len i x :
  nth_error (seq start len) i = Some x -> x = start + i.
Proof.
  revert start i. induction len as [|len IH]; intros start [|i]; simpl;
    try discriminate.
  - intros E; inversion E; lia.
  - intros E. apply IH in E. lia.
Qed.

Lemma gui_eta g :
  mkGui (core g) (line_visible g) (line_shown g) (annot g) (draws g) = g.
Proof. destruct g; reflexivity. Qed.

End ChartTickFacts.

(** X14: after a running tick, an annotation that [on_move] shows
    reads a sample of a buffer: its text names a metric, the index of
    a sample in the buffer of that metric as it is after the tick,
    and the value stored at that index. *)
Theorem X14_tooltip_reads_a_stored_sample
        (V : Type) (FV : PyFloat V) (frame : nat) (event : mouse_event)
        (g g' : gui V) (c : state V) :
  paused (core g) = false ->
  renderable (core g) ->
  update_plot frame (core g) = (Ok tt, c) ->
  on_move event (set_core c g) = (None, g') ->
  annot_visible (annot g') = true ->
  exists key i buf yi,
    dict_get key (data_dict c) = Some buf
    /\ nth_error buf i = Some yi
    /\ dict_get key (line_visible g) = Some true
    /\ annot g' = mkAnnot true (i, yi) (Some (key, i, yi)).
Proof.
  intros P R Hc Hm Hv. unfold on_move in Hm.
  destruct (curves_after_tick frame (core g) c P R Hc) as (Hk & _ & Hcur).
  assert (E : on_move_lines event (keys (lines c)) (set_core c g)
              = Some (None, g')).
  { cbn [core set_core annot] in Hm.
    destruct (inaxes event);
      [destruct (on_move_lines event (keys (lines c)) (set_core c g))
         as [[[e|] g1]|]|];
      try discriminate; try (injection Hm as <-; reflexivity);
      destruct (annot_visible (annot g)) eqn:Ea; injection Hm as <-;
      cbn in Hv; congruence. }
  destruct (on_move_lines_shown _ _ _ _ E)
    as (pre & key & post & ind & i & x & y & xi & yi
        & Hks & _ & Ht & _ & Hl & Hx & Hy & ->).
  cbn [core set_core line_visible] in Hl, Ht.
  destruct (Hcur key) as (buf & Hb & Hl').
  { rewrite <- Hk, Hks. apply in_or_app. right. simpl; auto. }
  rewrite Hl' in Hl. injection Hl as <- <-.
  apply nth_error_seq_index in Hx. simpl in Hx. subst xi.
  exists key, i, buf, yi. repeat split; auto.
Qed.

(** X15: the whole callback.  A paused tick changes nothing at all of
    the program or the chart and asks for no redraw.  A running tick
    whose [update_plot] part returns normally, when every curve has
    its buffer and its check box, ends normally with each curve shown
    exactly when its box is ticked and one redraw.  When that part
    raises (as [ax.set_ylim] does on a limit that is NaN or infinite)
    the exception leaves the callback: the curves are not brought in
    line with the boxes and the canvas is not redrawn. *)
Theorem X15_tick_redraws_unless_paused
        (V : Type) (FV : PyFloat V) (frame : nat) (g : gui V) :
  renderable (core g) ->
  (forall k, In k (keys (lines (core g))) ->
             dict_mem k (line_visible g) = true) ->
  (paused (core g) = true -> update_plot_chart frame g = (None, g))
  /\ (forall c,
        paused (core g) = false ->
        update_plot frame (core g) = (Ok tt, c) ->
        exists g',
          update_plot_chart frame g = (None, g')
          /\ core g' = c
          /\ draws g' = S (draws g)
          /\ line_visible g' = line_visible g
          /\ annot g' = annot g
          /\ forall k, In k (keys (lines (core g))) ->
                       dict_get k (line_shown g') =
                       dict_get k (line_visible g))
  /\ (forall e c,
        update_plot frame (core g) = (Raise e, c) ->
        update_plot_chart frame g = (Some (CoreError e), set_core c g)).
Proof.
  intros R Hbox. split; [|split].
  - intros P. unfold update_plot_chart.
    rewrite (update_plot_paused _ _ P), P. unfold set_core.
    now rewrite gui_eta.
  - intros c P H. unfold update_plot_chart. rewrite H, P.
    destruct (curves_after_tick frame (core g) c P R H) as (Hk & _ & _).
    destruct (update_visibility_loop_spec (keys (lines c)) (set_core c g))
      as (g1 & Hl & Hc & Hv & Ha & Hd & Hs).
    { intros k Hin. rewrite Hk in Hin. now apply Hbox. }
    unfold update_visibility. cbn [core set_core]. rewrite Hl.
    eexists. split; [reflexivity|].
    cbn [core line_visible annot draws canvas_draw].
    rewrite Hc, Hv, Ha, Hd. repeat split.
    intros k Hin. rewrite Hs, Hk.
    now rewrite (proj2 (recognized_In _ k) Hin).
  - intros e c H. unfold update_plot_chart. now rewrite H.
Qed.

Lemma X15_witness :
  let g :=
    set_core (started_with ("target_speed:5" ++ LF))
             (set_line_visible
                (dict_set (txt "target_speed") false
                          (line_visible (initial_gui (V:=pyfloat))))
                initial_gui) in
  exists g',
    update_plot_chart 0 g = (None, g')
    /\ draws g' = 1
    /\ dict_get (txt "target_speed") (line_shown g') = Some false.
Proof.
  cbv zeta. set (g := set_core _ _).
  destruct (X15_tick_redraws_unless_paused pyfloat pyfloat_ops 0 g)
    as (_ & H & _).
  - apply renderable_initial.
  - intros k Hk. simpl in Hk.
    destruct Hk as [<-|[<-|[<-|[]]]]; reflexivity.
  - destruct (H (snd (update_plot 0 (core g))))
      as (g' & H1 & _ & H3 & _ & _ & H6).
    + reflexivity.
    + vm_compute. reflexivity.
    + exists g'. split; [exact H1|]. split; [exact H3|].
      rewrite H6; [reflexivity|simpl; auto].
Defined.

Lemma X14_witness :
  let g := initial_gui (V:=pyfloat) in
  let st := started_with ("target_speed:5" ++ LF ++ "target_speed:6" ++ LF) in
  let event :=
    mkMouse true (fun k => if text_eqb k (txt "target_speed")
                           then (true, [1; 0]) else (false, [])) in
  exists key i yi g',
    on_move event (set_core (snd (update_plot 0 st)) (set_core st g))
    = (None, g')
    /\ annot g' = mkAnnot true (i, yi) (Some (key, i, yi)).
Proof.
  cbv zeta.
  set (st := started_with _). set (event := mkMouse _ _).
  set (g := set_core st initial_gui).
  assert (E : exists g',
             on_move event (set_core (snd (update_plot 0 st)) g) = (None, g')
             /\ annot_visible (annot g') = true).
  { eexists. split; vm_compute; reflexivity. }
  destruct E as (g' & E & Hv).
  destruct (X14_tooltip_reads_a_stored_sample pyfloat pyfloat_ops 0 event
              g g' (snd (update_plot 0 st)))
    as (key & i & buf & yi & _ & _ & _ & Ha).
  - reflexivity.
  - apply renderable_initial.
  - vm_compute. reflexivity.
  - exact E.
  - exact Hv.
  - exists key, i, yi, g'. split; [exact E|exact Ha].
Defined.

Section IdleFacts.

Context {V : Type} {FV : PyFloat V}.
Implicit Types (st c : state V).

Lemma dict_set_same_value (A : Type) k (v : A) (t : dict A) :
  dict_get k t = Some v -> dict_set k v t = t.
Proof.
  induction t as [|[k' v'] t IH]; simpl; [discriminate|].
  destruct (text_eqb k k') eqn:E.
  - intros H; inversion H; reflexivity.
  - intros H. now rewrite IH.
Qed.

(** A curve that already shows its buffer, under axes that are already
    set, is left as it is by another pass of the rendering loop. *)
Lemma render_one_fixed k c buf :
  dict_get k (data_dict c) = Some buf ->
  dict_get k (lines c) = Some (seq 0 (length buf), buf) ->
  (buf <> [] ->
   xlim c = Some (0, MAX_POINTS)
   /\ exists lo hi,
        y_min_of (data_dict c) = Some lo
        /\ y_max_of (data_dict c) = Some hi
        /\ ylim c = Some (lo, hi)) ->
  render_one k c = c.
Proof.
  intros Hd Hl Hax. unfold render_one. rewrite Hd.
  rewrite (dict_set_same_value _ _ _ _ Hl).
  destruct buf as [|v buf].
  - destruct c; reflexivity.
  - destruct Hax as (Hx & lo & hi & Hlo & Hhi & Hy); [discriminate|].
    rewrite Hlo, Hhi. destruct c; simpl in *. now rewrite Hx, Hy.
Qed.

Lemma fold_render_fixed ks c :
  (forall k, In k ks -> render_one k c = c) ->
  fold_left (fun s k => render_one k s) ks c = c.
Proof.
  induction ks as [|k ks IH]; intros H; [reflexivity|].
  cbn [fold_left]. rewrite (H k) by (simpl; auto).
  apply IH. intros k' Hk'. apply H. simpl; auto.
Qed.

End IdleFacts.

(** X16: idle ticks are idempotent.  The state a running tick leaves,
    with the port drained, every curve showing its buffer and the axes
    set, is left exactly as it is by any further tick that finds
    nothing on the port. *)
Theorem X16_idle_tick_changes_nothing
        (V : Type) (FV : PyFloat V) (frame frame' : nat) (st c : state V) :
  paused st = false ->
  renderable st ->
  update_plot frame st = (Ok tt, c) ->
  update_plot frame' c = (Ok tt, c).
Proof.
  intros P R H.
  destruct (curves_after_tick frame st c P R H) as (Hk & Hkd & Hcur).
  destruct (axes_after_tick frame st c P R H) as (_ & Hax).
  pose proof (tick_same_store frame st P) as Hs.
  simpl handle in Hs. rewrite H in Hs. cbn [snd] in Hs.
  destruct Hs as (Hp & Hser & _).
  cbn [paused ser set_ser] in Hp, Hser. rewrite paused_fold_step in Hp.
  assert (Rc : renderable c).
  { intros k Hin. rewrite Hk in Hin. apply dict_mem_In. rewrite Hkd.
    apply dict_mem_In. now apply R. }
  destruct (update_plot_fold frame st c P R H) as [_ Hfin].
  rewrite (update_plot_running frame' c (eq_trans Hp P)).
  rewrite Hser. cbn [read_lines fold_left].
  rewrite (set_ser_nil c Hser).
  rewrite render_lines_fold.
  2:{ intros k Hin. now apply Rc. }
  2:{ intros k v buf lo hi Hin. rewrite Hk in Hin. now apply Hfin. }
  f_equal.
  apply fold_render_fixed. intros k Hin. rewrite Hk in Hin.
  destruct (Hcur k Hin) as (buf & Hb & Hl).
  apply (render_one_fixed k c buf Hb Hl).
  intros Hne. destruct buf as [|v buf]; [congruence|].
  apply (Hax k v buf Hin Hb).
Qed.

Lemma X16_witness :
  let st := started_with ("target_speed:5,current_speed:1" ++ LF) in
  update_plot 1 (snd (update_plot 0 st)) = (Ok tt, snd (update_plot 0 st)).
Proof.
  apply (X16_idle_tick_changes_nothing pyfloat pyfloat_ops 0 1
           (started_with ("target_speed:5,current_speed:1" ++ LF))).
  - reflexivity.
  - apply renderable_initial.
  - vm_compute. reflexivity.
Defined.

(** X17: a click on a check box flips its variable and brings every
    curve in line with its box; it touches neither the program state
    nor the annotation and asks for no redraw, so the change shows at
    the next [canvas.draw()]. *)
Theorem X17_click_flips_one_box
        (V : Type) (key : text) (b : bool) (g : gui V) :
  (forall k, In k (keys (lines (core g))) ->
             dict_mem k (line_visible g) = true) ->
  dict_get key (line_visible g) = Some b ->
  exists g',
    toggle key g = (None, g')
    /\ dict_get key (line_visible g') = Some (negb b)
    /\ (forall k, text_eqb k key = false ->
                  dict_get k (line_visible g') = dict_get k (line_visible g))
    /\ (forall k, In k (keys (lines (core g))) ->
                  dict_get k (line_shown g') = dict_get k (line_visible g'))
    /\ core g' = core g /\ annot g' = annot g /\ draws g' = draws g.
Proof.
  intros Hbox Hb. unfold toggle. rewrite Hb.
  set (g1 := set_line_visible _ g).
  destruct (update_visibility_loop_spec (keys (lines (core g1))) g1)
    as (g' & Hl & Hc & Hv & Ha & Hd & Hs).
  { intros k Hk. unfold g1. cbn [line_visible set_line_visible].
    apply dict_mem_set_keep. now apply Hbox. }
  exists g'. split; [exact Hl|]. rewrite Hv, Hc, Ha, Hd.
  unfold g1. cbn [line_visible set_line_visible core annot draws].
  split; [apply dict_get_set_same|].
  split; [intros k Hk; now apply dict_get_set_other|].
  split; [|auto].
  intros k Hk. rewrite Hs. unfold g1 at 1. cbn [core set_line_visible].
  now rewrite (proj2 (recognized_In _ k) Hk).
Qed.

Lemma X17_witness :
  exists g',
    toggle (txt "current_duty") (initial_gui (V:=pyfloat)) = (None, g')
    /\ dict_get (txt "current_duty") (line_shown g') = Some false
    /\ draws g' = 0.
Proof.
  destruct (X17_click_flips_one_box pyfloat (txt "current_duty") true
              initial_gui)
    as (g' & H1 & H2 & _ & H4 & _ & _ & H7).
  - intros k Hk. simpl in Hk.
    destruct Hk as [<-|[<-|[<-|[]]]]; reflexivity.
  - reflexivity.
  - exists g'. split; [exact H1|]. split; [|exact H7].
    rewrite H4; [exact H2|simpl; auto].
Defined.

Section RaisingTickFacts.

Context {V : Type} {FV : PyFloat V}.
Implicit Types (st : state V) (d : dict (list V)).

(** When every key has its buffer, the rendering loop can only be left
    by the [ValueError] of [ax.set_ylim], at a curve that has a value
    and with a limit that is NaN or infinite. *)
Lemma render_lines_raise ks st e st' :
  (forall k, In k ks -> dict_mem k (data_dict st) = true) ->
  render_lines ks st = (Raise e, st') ->
  e = ValueError (txt "Axis limits cannot be NaN or Inf")
  /\ exists k v buf lo hi,
       In k ks
       /\ dict_get k (data_dict st) = Some (v :: buf)
       /\ y_min_of (data_dict st) = Some lo
       /\ y_max_of (data_dict st) = Some hi
       /\ isfinite lo && isfinite hi = false.
Proof.
  revert st. induction ks as [|key rest IH]; intros st Hk H; [discriminate|].
  assert (Hm : dict_mem key (data_dict st) = true) by (apply Hk; simpl; auto).
  unfold dict_mem in Hm.
  destruct (dict_get key (data_dict st)) as [y|] eqn:E; [|discriminate].
  destruct (y_range_defined (data_dict st)) as (lo & hi & Hlo & Hhi).
  { intros N. rewrite N in E. discriminate. }
  destruct (render_lines_step key rest st y lo hi E Hlo Hhi) as [Hgo Hstop].
  assert (Hnext :
    render_lines (key :: rest) st = render_lines rest (render_one key st) ->
    e = ValueError (txt "Axis limits cannot be NaN or Inf")
    /\ exists k v buf lo hi,
         In k (key :: rest)
         /\ dict_get k (data_dict st) = Some (v :: buf)
         /\ y_min_of (data_dict st) = Some lo
         /\ y_max_of (data_dict st) = Some hi
         /\ isfinite lo && isfinite hi = false).
  { intros Hg. rewrite Hg in H.
    destruct (IH (render_one key st)) as (He & k & v & buf & lo' & hi' & F);
      [|exact H|].
    - intros k Hin. rewrite data_dict_render_one. apply Hk. simpl; auto.
    - rewrite data_dict_render_one in F.
      destruct F as (Hin & F). split; [exact He|].
      exists k, v, buf, lo', hi'. split; [simpl; auto|exact F]. }
  destruct y as [|v buf]; [apply Hnext, Hgo; now left|].
  destruct (isfinite lo && isfinite hi) eqn:F;
    [apply Hnext, Hgo; now right|].
  destruct (Hstop ltac:(discriminate) eq_refl) as [s Hs].
  rewrite Hs in H. injection H as <- _. split; [reflexivity|].
  exists key, v, buf, lo, hi. simpl; auto.
Qed.

End RaisingTickFacts.

(** X18: on a state where every curve has its buffer, a tick can only
    raise through [ax.set_ylim] (line 162, outside the [try]): the
    exception is its [ValueError], some curve has a value, and a limit
    computed by lines 160-161 is NaN or infinite.  By then the loop
    has ended normally: the port is drained and the buffers, the
    worksheet and the reports are as the loop left them. *)
Theorem X18_tick_raises_only_on_bad_limits
        (V : Type) (FV : PyFloat V) (frame : nat) (st st' : state V)
        (e : exn) :
  renderable st ->
  update_plot frame st = (Raise e, st') ->
  paused st = false
  /\ e = ValueError (txt "Axis limits cannot be NaN or Inf")
  /\ same_store
       (set_ser [] (fold_left (fun s raw => step_line raw s)
                              (read_lines (ser st)) st))
       st'
  /\ exists k v buf lo hi,
       In k (keys (lines st))
       /\ dict_get k (data_dict st') = Some (v :: buf)
       /\ y_min_of (data_dict st') = Some lo
       /\ y_max_of (data_dict st') = Some hi
       /\ isfinite lo && isfinite hi = false.
Proof.
  intros R H.
  assert (P : paused st = false).
  { destruct (paused st) eqn:P; [|reflexivity].
    rewrite (update_plot_paused _ _ P) in H. discriminate. }
  split; [exact P|].
  pose proof (tick_same_store frame st P) as Hs.
  simpl handle in Hs. rewrite H in Hs. cbn [snd] in Hs.
  rewrite (update_plot_running _ _ P) in H.
  set (st1 := set_ser [] _) in *.
  assert (Hin : forall k, In k (keys (lines st)) ->
                          dict_mem k (data_dict st1) = true).
  { intros k Hk. apply dict_mem_In. unfold st1. cbn [data_dict set_ser].
    rewrite keys_data_dict_fold_step. apply dict_mem_In. now apply R. }
  destruct (render_lines_raise _ st1 e st' Hin H) as (He & F).
  split; [exact He|]. split; [exact Hs|].
  destruct Hs as (_ & _ & Hd & _). rewrite Hd. exact F.
Qed.

Lemma X18_witness :
  let st := started_with ("target_speed:inf" ++ LF) in
  exists st',
    update_plot 0 st
    = (Raise (ValueError (txt "Axis limits cannot be NaN or Inf")), st')
    /\ dict_get (txt "target_speed") (data_dict st') = Some [PosInf]
    /\ data_rows st' = [[CNum PosInf]]
    /\ ylim st' = None.
Proof.
  cbv zeta. set (st := started_with _).
  assert (H : exists e, update_plot 0 st = (Raise e, snd (update_plot 0 st))).
  { eexists. vm_compute. reflexivity. }
  destruct H as [e H].
  destruct (X18_tick_raises_only_on_bad_limits pyfloat pyfloat_ops 0 st
              (snd (update_plot 0 st)) e) as (_ & He & _).
  - apply renderable_initial.
  - exact H.
  - exists (snd (update_plot 0 st)). rewrite <- He. split; [exact H|].
    vm_compute. repeat split.
Defined.
